(** * XFB start-up sequence ([src/main.cpp])

    A shallow embedding of [main]: the calls it makes on the Qt toolkit are
    primitives of a small state/trace monad, the answers of the platform
    (standard paths, file system permissions, resource contents) are fields
    of a [Platform] record, and [main] itself is transcribed statement by
    statement. *)

From Stdlib Require Import ZArith Ascii String.
From stdpp Require Import base strings gmap list.

(** ** Qt values used by [main] *)

Module Qt.

(** [Qt::AlignmentFlag] *)
Definition AlignHCenter : Z := 0x0004.
Definition AlignBottom : Z := 0x0040.

(** [Qt::GlobalColor], the two members [main] names *)
Inductive GlobalColor := red | darkBlue.

End Qt.

Record QColor := MkQColor { r_ : Z; g_ : Z; b_ : Z }.

#[global] Instance QColor_eq_dec : EqDecision QColor.
Proof. solve_decision. Defined.

(** Implicit conversion [QColor(Qt::GlobalColor)] *)
Definition QColor_of_global (c : Qt.GlobalColor) : QColor :=
  match c with
  | Qt.red => MkQColor 255 0 0
  | Qt.darkBlue => MkQColor 0 0 128
  end.

Module QPalette.

(** [QPalette::ColorRole] *)
Inductive ColorRole :=
| WindowText | Button | Light | Midlight | Dark | Mid | Text | BrightText
| ButtonText | Base | Window | Shadow | Highlight | HighlightedText
| Link | LinkVisited | AlternateBase | NoRole | ToolTipBase | ToolTipText
| PlaceholderText.

#[global] Instance ColorRole_eq_dec : EqDecision ColorRole.
Proof. solve_decision. Defined.

Definition roles : list ColorRole :=
  [WindowText; Button; Light; Midlight; Dark; Mid; Text; BrightText;
   ButtonText; Base; Window; Shadow; Highlight; HighlightedText; Link;
   LinkVisited; AlternateBase; NoRole; ToolTipBase; ToolTipText;
   PlaceholderText].

(** A palette gives a colour to every role. *)
Definition t : Type := ColorRole -> QColor.

(** [QPalette::setColor(role, color)] *)
Definition setColor (p : t) (role : ColorRole) (c : QColor) : t :=
  fun role' => if decide (role' = role) then c else p role'.

End QPalette.

Module QFile.

(** [QFileDevice::Permission] *)
Definition ReadOwner : Z := 0x4000.
Definition WriteOwner : Z := 0x2000.
Definition ReadGroup : Z := 0x0040.
Definition ReadOther : Z := 0x0004.

End QFile.

(** [QVariant], as far as an INI file and [main]'s defaults produce it. *)
Inductive QVariant :=
| QVariant_String (s : string)
| QVariant_Bool (b : bool).

Definition toLower_ascii (c : ascii) : ascii :=
  let n := nat_of_ascii c in
  if (65 <=? n)%nat && (n <=? 90)%nat then ascii_of_nat (n + 32) else c.

Fixpoint toLower (s : string) : string :=
  match s with
  | EmptyString => EmptyString
  | String c s' => String (toLower_ascii c) (toLower s')
  end.

(** [QVariant::toString] *)
Definition toString (v : QVariant) : string :=
  match v with
  | QVariant_String s => s
  | QVariant_Bool true => "true"
  | QVariant_Bool false => "false"
  end.

(** [QVariant::toBool]: a string is false when its lower-case content is
    empty, ["0"] or ["false"], and true otherwise. *)
Definition toBool (v : QVariant) : bool :=
  match v with
  | QVariant_Bool b => b
  | QVariant_String s =>
      let l := toLower s in
      negb (String.eqb l "" || String.eqb l "0" || String.eqb l "false")
  end.

(** [QString::isEmpty] *)
Definition isEmpty (s : string) : bool :=
  match s with
  | EmptyString => true
  | String _ _ => false
  end.

Definition LF : string := String (ascii_of_nat 10) EmptyString.

(** [QString::arg] for a template with the one place marker [%1]. *)
Fixpoint arg (s a : string) : string :=
  match s with
  | EmptyString => EmptyString
  | String c s' =>
      match s' with
      | String d s'' =>
          if Ascii.eqb c "%" && Ascii.eqb d "1" then a +:+ s''
          else String c (arg s' a)
      | EmptyString => s
      end
  end.

(** ** The world [main] runs in *)

(** A file: its bytes and its [QFileDevice::Permissions] mask. *)
Record QFileEntry := MkFile { contents : string; permissions : Z }.

(** Files are keyed by path; paths starting with [:/] are the entries of the
    Qt resource system, the others are on disk. *)
Record FileSystem := MkFS {
  dirs : gset string;
  files : gmap string QFileEntry
}.

(** The state of the [QApplication] object [a]. *)
Record QApplication := MkApp {
  translators : list string;          (* installed, most recent first *)
  palette : option QPalette.t;        (* [None]: the style's own palette *)
  styleSheet : string
}.

Record World := MkWorld { fs : FileSystem; qapp : QApplication }.

Inductive OS := Q_OS_MAC | Q_OS_LINUX | Q_OS_WIN | Q_OS_OTHER.

(** What the platform and the toolkit answer; [main] cannot influence it. *)
Record Platform := MkPlatform {
  target_os : OS;
  (* QStandardPaths::writableLocation(QStandardPaths::AppConfigLocation) *)
  writableLocation : string;
  (* whether the operating system lets [mkpath] create this directory *)
  mkpath_succeeds : string -> bool;
  (* whether the data of a copy can be written to the destination *)
  copy_succeeds : string -> string -> bool;
  (* whether the permissions of this file can be changed *)
  setPermissions_succeeds : string -> bool;
  (* the keys QSettings finds in file contents; [None]: not parseable *)
  readIniFile : string -> option (gmap string string);
  (* whether file contents are a loadable [.qm] catalogue *)
  qm_loadable : string -> bool;
  (* the translation a loaded catalogue has for a source text *)
  qm_translate : string -> string -> option string;
  (* the palette a default-constructed [QPalette] starts from *)
  defaultPalette : QPalette.t;
  (* what [QApplication::exec] eventually returns *)
  exec_result : Z
}.

Inductive LogLevel := Debug | Info | Warning | Critical.

(** The operands of a [qDebug() << ...] chain. *)
Inductive LogArg :=
| LText (s : string)      (* a C string literal *)
| LString (s : string)    (* a QString *)
| LBool (b : bool).

(** The observable calls of [main], in program order. *)
Inductive Event :=
| PutEnv (name value : string)
| SetDesktopSettingsAware (on : bool)
| NewQApplication
| SetWindowIcon (icon : string)
| SetApplicationName (name : string)
| SetOrganizationName (name : string)
| SetStyle (name : string)
| NewSplashScreen (pixmap : string)
| SplashShow
| SplashMessage (text : string) (alignment : Z) (color : QColor)
| SplashHide
| SplashFinish
| ProcessEvents
| Log (level : LogLevel) (args : list LogArg)
| MessageBoxCritical (title text : string)
| Mkpath (dir : string)
| FileCopy (from to : string)
| SetPermissions (path : string) (perms : Z)
| SettingsOpen (path : string)
| SettingsValue (key : string)
| TranslatorLoad (path : string)
| InstallTranslator (catalogue : option string)
| MSleep (ms : Z)
| SetPalette (p : QPalette.t)
| FileOpen (path : string)
| FileClose (path : string)
| SetStyleSheet (sheet : string)
| NewPlayer
| ShowFullScreen
| Show
| Exec.

(** ** The monad of [main]: world state, event trace, early [return] *)

Inductive Flow (A : Type) :=
| Continue (x : A)          (* fall through to the next statement *)
| Return (status : Z).      (* [return status;] *)
Arguments Continue {A} x.
Arguments Return {A} status.

Record Run (A : Type) := MkRun {
  trace : list Event;
  final : World;
  flow : Flow A
}.
Arguments MkRun {A} trace final flow.
Arguments trace {A} _.
Arguments final {A} _.
Arguments flow {A} _.

Definition M (A : Type) : Type := World -> Run A.

#[global] Instance M_ret : MRet M := fun A x w => MkRun [] w (Continue x).

#[global] Instance M_bind : MBind M := fun A B f m w =>
  match m w with
  | MkRun t w' (Continue x) =>
      match f x w' with
      | MkRun t' w'' next => MkRun (t ++ t') w'' next
      end
  | MkRun t w' (Return z) => MkRun t w' (Return z)
  end.

Definition emit (e : Event) : M unit := fun w => MkRun [e] w (Continue tt).

(** [return status;] *)
Definition return_ {A : Type} (status : Z) : M A :=
  fun w => MkRun [] w (Return status).

Definition get_world : M World := fun w => MkRun [] w (Continue w).

Definition put_fs (f : FileSystem) : M unit :=
  fun w => MkRun [] (MkWorld f (qapp w)) (Continue tt).

Definition put_app (a : QApplication) : M unit :=
  fun w => MkRun [] (MkWorld (fs w) a) (Continue tt).

(** ** Toolkit calls *)

Section Toolkit.

Variable plat : Platform.

Definition qputenv (name value : string) : M unit := emit (PutEnv name value).

Definition QApplication_setDesktopSettingsAware (on : bool) : M unit :=
  emit (SetDesktopSettingsAware on).

(** [QApplication a(argc, argv);] *)
Definition QApplication_new : M unit := emit NewQApplication.

Definition a_setWindowIcon (icon : string) : M unit := emit (SetWindowIcon icon).

Definition QCoreApplication_setApplicationName (name : string) : M unit :=
  emit (SetApplicationName name).

Definition QCoreApplication_setOrganizationName (name : string) : M unit :=
  emit (SetOrganizationName name).

Definition QApplication_setStyle (name : string) : M unit := emit (SetStyle name).

(** [QSplashScreen splash(QPixmap(pixmap));] *)
Definition QSplashScreen_new (pixmap : string) : M unit :=
  emit (NewSplashScreen pixmap).

Definition splash_show : M unit := emit SplashShow.

Definition splash_hide : M unit := emit SplashHide.

Definition splash_showMessage (text : string) (alignment : Z) (color : QColor)
  : M unit :=
  emit (SplashMessage text alignment color).

(** [splash.finish(&w)] *)
Definition splash_finish : M unit := emit SplashFinish.

Definition a_processEvents : M unit := emit ProcessEvents.

(** The first installed catalogue that knows the text decides. *)
Fixpoint translate (installed : list string) (text : string) : string :=
  match installed with
  | [] => text
  | qm :: rest =>
      match qm_translate plat qm text with
      | Some t => t
      | None => translate rest text
      end
  end.

(** [QObject::tr(text)] *)
Definition QObject_tr (text : string) : M string :=
  w ← get_world; mret (translate (translators (qapp w)) text).

Definition qDebug (args : list LogArg) : M unit := emit (Log Debug args).
Definition qInfo (args : list LogArg) : M unit := emit (Log Info args).
Definition qWarning (args : list LogArg) : M unit := emit (Log Warning args).
Definition qCritical (args : list LogArg) : M unit := emit (Log Critical args).

(** [QMessageBox::critical(nullptr, title, text)]: modal, returns when the
    user dismisses it. *)
Definition QMessageBox_critical (title text : string) : M unit :=
  emit (MessageBoxCritical title text).

Definition QStandardPaths_writableLocation : M string :=
  mret (writableLocation plat).

Definition is_dir (disk : FileSystem) (dir : string) : bool :=
  bool_decide (dir ∈ dirs disk).

(** [QDir(dir).exists()] *)
Definition QDir_exists (dir : string) : M bool :=
  w ← get_world; mret (is_dir (fs w) dir).

(** [QDir(dir).mkpath(".")]; of the directories it creates, only [dir] itself
    is recorded. *)
Definition QDir_mkpath (dir : string) : M bool :=
  emit (Mkpath dir);;
  w ← get_world;
  if is_dir (fs w) dir then mret true
  else if mkpath_succeeds plat dir then
    put_fs (MkFS ({[dir]} ∪ dirs (fs w)) (files (fs w)));; mret true
  else mret false.

(** [QFile::exists(path)] *)
Definition QFile_exists (path : string) : M bool :=
  w ← get_world;
  mret (match files (fs w) !! path with Some _ => true | None => false end).

(** [QFile::copy(from, to)]: never overwrites; the new file takes the
    contents and the permissions of the source. *)
Definition QFile_copy (from to : string) : M bool :=
  emit (FileCopy from to);;
  w ← get_world;
  match files (fs w) !! from, files (fs w) !! to with
  | Some f, None =>
      if copy_succeeds plat from to then
        put_fs (MkFS (dirs (fs w)) (<[to := f]> (files (fs w))));; mret true
      else mret false
  | _, _ => mret false
  end.

(** [QFile::setPermissions(path, perms)] *)
Definition QFile_setPermissions (path : string) (perms : Z) : M bool :=
  emit (SetPermissions path perms);;
  w ← get_world;
  match files (fs w) !! path with
  | Some f =>
      if setPermissions_succeeds plat path then
        put_fs (MkFS (dirs (fs w))
                     (<[path := MkFile (contents f) perms]> (files (fs w))));;
        mret true
      else mret false
  | None => mret false
  end.

(** [QSettings settings(path, QSettings::IniFormat);] a missing or
    unparseable file has no keys. *)
Definition QSettings_read (disk : FileSystem) (path : string)
  : gmap string string :=
  match files disk !! path with
  | Some f => default ∅ (readIniFile plat (contents f))
  | None => ∅
  end.

Definition QSettings_new (path : string) : M (gmap string string) :=
  emit (SettingsOpen path);;
  w ← get_world;
  mret (QSettings_read (fs w) path).

(** What [value(key, defaultValue)] returns. *)
Definition value (settings : gmap string string) (key : string)
    (defaultValue : QVariant) : QVariant :=
  match settings !! key with
  | Some s => QVariant_String s
  | None => defaultValue
  end.

(** [settings.value(key, defaultValue)] *)
Definition settings_value (settings : gmap string string) (key : string)
    (defaultValue : QVariant) : M QVariant :=
  emit (SettingsValue key);;
  mret (value settings key defaultValue).

(** [tr.load(path)]: the translator object holds the catalogue it loaded
    last, if any; the call says whether loading worked. *)
Definition tr_load (tr : option string) (path : string)
  : M (option string * bool) :=
  emit (TranslatorLoad path);;
  w ← get_world;
  match files (fs w) !! path with
  | Some f =>
      if qm_loadable plat (contents f) then mret (Some (contents f), true)
      else mret (None, false)
  | None => mret (None, false)
  end.

(** [a.installTranslator(&tr)] *)
Definition a_installTranslator (tr : option string) : M unit :=
  emit (InstallTranslator tr);;
  w ← get_world;
  match tr with
  | Some qm =>
      put_app (MkApp (qm :: translators (qapp w)) (palette (qapp w))
                     (styleSheet (qapp w)))
  | None => mret tt
  end.

Definition QThread_msleep (ms : Z) : M unit := emit (MSleep ms).

(** [a.setPalette(p)] *)
Definition a_setPalette (p : QPalette.t) : M unit :=
  emit (SetPalette p);;
  w ← get_world;
  put_app (MkApp (translators (qapp w)) (Some p) (styleSheet (qapp w))).

(** [QFile styleFile(path); styleFile.open(QFile::ReadOnly | QFile::Text)]:
    a file can be opened for reading when it is there. *)
Definition styleFile_open (path : string) : M bool :=
  emit (FileOpen path);;
  w ← get_world;
  mret (match files (fs w) !! path with Some _ => true | None => false end).

(** [QLatin1String(styleFile.readAll())] *)
Definition styleFile_readAll (path : string) : M string :=
  w ← get_world;
  mret (match files (fs w) !! path with
        | Some f => contents f
        | None => ""
        end).

Definition styleFile_close (path : string) : M unit := emit (FileClose path).

(** [a.setStyleSheet(sheet)] *)
Definition a_setStyleSheet (sheet : string) : M unit :=
  emit (SetStyleSheet sheet);;
  w ← get_world;
  put_app (MkApp (translators (qapp w)) (palette (qapp w)) sheet).

(** [player w;] the main window, an external collaborator. *)
Definition player_new : M unit := emit NewPlayer.

Definition w_showFullScreen : M unit := emit ShowFullScreen.
Definition w_show : M unit := emit Show.

(** [a.exec()] *)
Definition a_exec : M Z := emit Exec;; mret (exec_result plat).

End Toolkit.

(** ** [main] *)

Section Main.

Variable plat : Platform.

Import QPalette.

(** The [setColor] calls on [darkPalette], in source order. *)
Definition darkPalette_colors : list (ColorRole * QColor) :=
  [ (Window, MkQColor 30 30 46);
    (WindowText, MkQColor 205 214 244);
    (Base, MkQColor 24 24 37);
    (AlternateBase, MkQColor 30 30 46);
    (ToolTipBase, MkQColor 205 214 244);
    (ToolTipText, MkQColor 30 30 46);
    (Text, MkQColor 205 214 244);
    (Button, MkQColor 49 50 68);
    (ButtonText, MkQColor 205 214 244);
    (BrightText, QColor_of_global Qt.red);
    (Highlight, MkQColor 137 180 250);
    (HighlightedText, MkQColor 30 30 46) ].

(** The [setColor] calls on [lightPalette], in source order. *)
Definition lightPalette_colors : list (ColorRole * QColor) :=
  [ (Window, MkQColor 239 241 245);
    (WindowText, MkQColor 76 79 105);
    (Base, MkQColor 255 255 255);
    (AlternateBase, MkQColor 239 241 245);
    (ToolTipBase, MkQColor 76 79 105);
    (ToolTipText, MkQColor 255 255 255);
    (Text, MkQColor 76 79 105);
    (Button, MkQColor 230 233 239);
    (ButtonText, MkQColor 76 79 105);
    (BrightText, QColor_of_global Qt.red);
    (Highlight, MkQColor 30 102 245);
    (HighlightedText, MkQColor 255 255 255) ].

(** A default-constructed palette after the given [setColor] calls. *)
Definition setColors (colors : list (ColorRole * QColor)) : QPalette.t :=
  foldl (fun p rc => setColor p rc.1 rc.2) (defaultPalette plat) colors.

Definition darkPalette : QPalette.t := setColors darkPalette_colors.
Definition lightPalette : QPalette.t := setColors lightPalette_colors.

Definition alignit : Z := Z.lor Qt.AlignBottom Qt.AlignHCenter.
Definition msgColor : QColor := QColor_of_global Qt.darkBlue.

Definition configFileName : string := "xfb.conf".

(** The window icon chosen by the [#if defined(Q_OS_...)] chain. *)
Definition windowIcon : string :=
  match target_os plat with
  | Q_OS_MAC => "../Resources/XFB.icns"
  | Q_OS_LINUX => ":/Resources/48x48.png"
  | Q_OS_WIN => ":/Resources/48x48.png"
  | Q_OS_OTHER => ":/Resources/48x48.png"
  end.

(** [splash.showMessage(QObject::tr(text), alignit, color)] *)
Definition showMessage_tr (text : string) (color : QColor) : M unit :=
  s ← QObject_tr plat text; splash_showMessage s alignit color.

(** [QMessageBox::critical(nullptr, QObject::tr(title), text)] *)
Definition critical_tr (title : string) (text : M string) : M unit :=
  t ← QObject_tr plat title; x ← text; QMessageBox_critical t x.

(** Lines 19-47: environment, application object, identity, style. *)
Definition application_setup : M unit :=
  qputenv "QT_MULTIMEDIA_PREFERRED_PLUGINS" "gstreamer";;
  qputenv "QT_ACCESSIBILITY" "1";;
  QApplication_setDesktopSettingsAware false;;
  QApplication_new;;
  a_setWindowIcon windowIcon;;
  QCoreApplication_setApplicationName "XFB";;
  QCoreApplication_setOrganizationName "Netpack - Online Solutions";;
  QApplication_setStyle "Fusion".

(** Lines 49-55: splash screen initialization. *)
Definition splash_screen_initialization : M unit :=
  QSplashScreen_new "://images/splash.png";;
  splash_show;;
  showMessage_tr "Initializing..." msgColor;;
  a_processEvents.

(** Lines 57-103: configuration file handling; yields [configFilePath]. *)
Definition configuration_file_handling : M string :=
  writableConfigPath ← QStandardPaths_writableLocation plat;
  (if isEmpty writableConfigPath then
     qCritical [LText "Could not determine writable config location!"];;
     splash_hide;;
     critical_tr "Configuration Error"
       (QObject_tr plat "Cannot find writable location for configuration.");;
     return_ 1
   else mret tt);;
  let configDir := writableConfigPath in
  configDir_exists ← QDir_exists configDir;
  (if negb configDir_exists then
     qInfo [LText "Creating configuration directory:";
            LString writableConfigPath];;
     created ← QDir_mkpath plat configDir;
     if negb created then
       qCritical [LText "Failed to create configuration directory:";
                  LString writableConfigPath];;
       splash_hide;;
       critical_tr "Configuration Error"
         (t ← QObject_tr plat
                ("Could not create configuration directory:" +:+ LF +:+ "%1");
          mret (arg t writableConfigPath));;
       return_ 1
     else mret tt
   else mret tt);;
  let configFilePath := writableConfigPath +:+ "/" +:+ configFileName in
  let resourceConfigPath := ":/" +:+ configFileName in
  present ← QFile_exists configFilePath;
  (if negb present then
     showMessage_tr "Setting up default configuration..." msgColor;;
     a_processEvents;;
     copied ← QFile_copy plat resourceConfigPath configFilePath;
     if negb copied then
       qCritical [LText "Failed to copy default configuration from";
                  LString resourceConfigPath; LText "to";
                  LString configFilePath];;
       resource_exists ← QFile_exists resourceConfigPath;
       qCritical [LText "Resource exists?"; LBool resource_exists];;
       qCritical [LText "Check resource path and write permissions for";
                  LString writableConfigPath];;
       splash_hide;;
       critical_tr "Configuration Error"
         (QObject_tr plat "Could not copy default configuration file.");;
       return_ 1
     else
       qInfo [LText "Copied default configuration to:";
              LString configFilePath];;
       QFile_setPermissions plat configFilePath
         (Z.lor (Z.lor (Z.lor QFile.ReadOwner QFile.WriteOwner)
                       QFile.ReadGroup) QFile.ReadOther);;
       mret tt
   else
     qDebug [LText "Using existing configuration file:";
             LString configFilePath]);;
  mret configFilePath.

(** Lines 105-116: load settings using QSettings; yields
    [(idioma, fullScreen, darkMode)]. *)
Definition load_settings (configFilePath : string)
  : M (string * bool * bool) :=
  showMessage_tr "Loading settings..." msgColor;;
  a_processEvents;;
  settings ← QSettings_new plat configFilePath;
  v1 ← settings_value settings "Language" (QVariant_String "en");
  let idioma := toString v1 in
  v2 ← settings_value settings "FullScreen" (QVariant_Bool false);
  let fullScreen := toBool v2 in
  v3 ← settings_value settings "DarkMode" (QVariant_Bool false);
  let darkMode := toBool v3 in
  qDebug [LText "Settings Loaded - Language:"; LString idioma;
          LText "FullScreen:"; LBool fullScreen;
          LText "DarkMode:"; LBool darkMode];;
  mret (idioma, fullScreen, darkMode).

(** Lines 118-144: translator setup. *)
Definition translator_setup (idioma : string) : M unit :=
  let tr : option string := None in
  let translatorLoaded := false in
  '(tr, translatorLoaded) ←
    (if String.eqb idioma "pt" then
       showMessage_tr "Loading Portuguese GUI..." msgColor;;
       a_processEvents;;
       tr_load plat tr ":/portugues.qm"
     else if String.eqb idioma "fr" then
       showMessage_tr "Loading French GUI..." msgColor;;
       a_processEvents;;
       tr_load plat tr ":/frances.qm"
     else
       showMessage_tr "Loading English GUI..." msgColor;;
       a_processEvents;;
       mret (tr, translatorLoaded));
  if negb (String.eqb idioma "en") && translatorLoaded then
    a_installTranslator tr;;
    qDebug [LText "Installed translator for language:"; LString idioma]
  else if negb (String.eqb idioma "en") && negb translatorLoaded then
    qWarning [LText "Failed to load translator file for language:";
              LString idioma];;
    showMessage_tr "Failed to load translation!" (QColor_of_global Qt.red);;
    QThread_msleep 1500
  else
    qDebug [LText "Using default English GUI."].

(** Lines 147-199: theme application (palette and stylesheet). *)
Definition theme_application (darkMode : bool) : M unit :=
  showMessage_tr "Applying theme..." msgColor;;
  a_processEvents;;
  qssFilePath ←
    (if darkMode then
       a_setPalette darkPalette;;
       qDebug [LText "Set modern dark palette."];;
       mret ":/resources/darkstylesheet.qss"
     else
       a_setPalette lightPalette;;
       qDebug [LText "Set modern light palette."];;
       mret ":/resources/stylesheet.qss");
  opened ← styleFile_open qssFilePath;
  if (opened : bool) then
    styleSheet ← styleFile_readAll qssFilePath;
    a_setStyleSheet styleSheet;;
    styleFile_close qssFilePath;;
    qDebug [LText "Applied main global stylesheet:"; LString qssFilePath]
  else
    qWarning [LText "Could not open main stylesheet file:";
              LString qssFilePath].

(** Lines 201-205: create the main window. *)
Definition create_main_window : M unit :=
  showMessage_tr "Loading main window..." msgColor;;
  a_processEvents;;
  player_new.

(** Lines 207-217: show the main window and finish the splash. *)
Definition show_main_window (fullScreen : bool) : M unit :=
  showMessage_tr "XFB is Ready!" msgColor;;
  QThread_msleep 300;;
  (if fullScreen then w_showFullScreen else w_show);;
  splash_finish.

Definition main_body : M Empty_set :=
  application_setup;;
  splash_screen_initialization;;
  configFilePath ← configuration_file_handling;
  '(idioma, fullScreen, darkMode) ← load_settings configFilePath;
  translator_setup idioma;;
  theme_application darkMode;;
  create_main_window;;
  show_main_window fullScreen;;
  status ← a_exec plat;
  return_ status.

End Main.

(** The world at process entry: no translator, no palette, no stylesheet. *)
Definition initial_app : QApplication := MkApp [] None "".

(** [int main(int argc, char *argv[])], run on a file system. *)
Definition main (plat : Platform) (disk : FileSystem) : Run Empty_set :=
  main_body plat (MkWorld disk initial_app).

(** The process exit status of a run. *)
Definition exit_status (r : Run Empty_set) : Z :=
  match flow r with
  | Return status => status
  | Continue x => match x with end
  end.

(** ** Observations on runs *)

(** The stylesheet each variant names, and the table it sets. *)
Definition qssFilePath (darkMode : bool) : string :=
  if darkMode then ":/resources/darkstylesheet.qss"
  else ":/resources/stylesheet.qss".

Definition palette_colors (darkMode : bool)
  : list (QPalette.ColorRole * QColor) :=
  if darkMode then darkPalette_colors else lightPalette_colors.

(** The roles on which two palettes differ. *)
Definition changed_roles (p q : QPalette.t) : list QPalette.ColorRole :=
  filter (fun role => p role <> q role) QPalette.roles.

(** The three preferences [main] reads from a settings object. *)
Definition preferences (settings : gmap string string)
  : string * bool * bool :=
  (toString (value settings "Language" (QVariant_String "en")),
   toBool (value settings "FullScreen" (QVariant_Bool false)),
   toBool (value settings "DarkMode" (QVariant_Bool false))).

Definition recognized_keys : list string :=
  ["Language"; "FullScreen"; "DarkMode"].

Definition default_preferences : string * bool * bool := ("en", false, false).

(** Whether [tr.load(path)] works on this file system. *)
Definition loads (plat : Platform) (disk : FileSystem) (path : string) : bool :=
  match files disk !! path with
  | Some f => qm_loadable plat (contents f)
  | None => false
  end.

(** Visibility of the splash screen, replayed from the calls made on it. *)
Definition splash_step (visible : bool) (e : Event) : bool :=
  match e with
  | SplashShow => true
  | SplashHide => false
  | SplashFinish => false
  | _ => visible
  end.

Definition splash_visible (tr : list Event) : bool :=
  foldl splash_step false tr.

Definition is_dialog (e : Event) : bool :=
  match e with MessageBoxCritical _ _ => true | _ => false end.

Definition is_display (e : Event) : bool :=
  match e with ShowFullScreen | Show => true | _ => false end.

(** Events of the stages after configuration file handling. *)
Definition loads_settings (e : Event) : bool :=
  match e with SettingsOpen _ | SettingsValue _ => true | _ => false end.

Definition resolves_locale (e : Event) : bool :=
  match e with TranslatorLoad _ | InstallTranslator _ => true | _ => false end.

Definition applies_theme (e : Event) : bool :=
  match e with
  | SetPalette _ | FileOpen _ | FileClose _ | SetStyleSheet _ => true
  | _ => false
  end.

Definition constructs_window (e : Event) : bool :=
  match e with NewPlayer | ShowFullScreen | Show | Exec => true | _ => false end.

(** The calls each stage can make, by kind. *)
Definition configuration_step (e : Event) : bool :=
  match e with
  | Log _ _ | Mkpath _ | SplashMessage _ _ _ | ProcessEvents | FileCopy _ _
  | SetPermissions _ _ => true
  | _ => false
  end.

Definition settings_step (e : Event) : bool :=
  match e with
  | Log _ _ | SplashMessage _ _ _ | ProcessEvents | SettingsOpen _
  | SettingsValue _ => true
  | _ => false
  end.

Definition locale_step (e : Event) : bool :=
  match e with
  | Log _ _ | SplashMessage _ _ _ | ProcessEvents | TranslatorLoad _
  | InstallTranslator _ | MSleep _ => true
  | _ => false
  end.

Definition theme_step (e : Event) : bool :=
  match e with
  | Log _ _ | SplashMessage _ _ _ | ProcessEvents | SetPalette _ | FileOpen _
  | FileClose _ | SetStyleSheet _ => true
  | _ => false
  end.

(** Every dialog of the trace opens while the splash screen is hidden. *)
Fixpoint dialogs_after_hide (visible : bool) (tr : list Event) : bool :=
  match tr with
  | [] => true
  | e :: tr' =>
      (if is_dialog e then negb visible else true)
      && dialogs_after_hide (splash_step visible e) tr'
  end.

(** The events up to the configuration stage. *)
Definition boot_trace (plat : Platform) : list Event :=
  [PutEnv "QT_MULTIMEDIA_PREFERRED_PLUGINS" "gstreamer";
   PutEnv "QT_ACCESSIBILITY" "1";
   SetDesktopSettingsAware false;
   NewQApplication;
   SetWindowIcon (windowIcon plat);
   SetApplicationName "XFB";
   SetOrganizationName "Netpack - Online Solutions";
   SetStyle "Fusion";
   NewSplashScreen "://images/splash.png";
   SplashShow;
   SplashMessage "Initializing..." alignit msgColor;
   ProcessEvents].

(** The warning of the translator setup, for a language code. *)
Definition translation_warning (plat : Platform) (w : World) (idioma : string)
  : list Event :=
  [Log Warning [LText "Failed to load translator file for language:";
                LString idioma];
   SplashMessage
     (translate plat (translators (qapp w)) "Failed to load translation!")
     alignit (QColor_of_global Qt.red);
   MSleep 1500].

(** ** Sample platforms and disks *)

Definition sample_ini (contents : string) : option (gmap string string) :=
  if String.eqb contents "Language=xx" then Some {[ "Language" := "xx" ]}
  else if String.eqb contents "FullScreen=true" then
    Some {[ "FullScreen" := "true" ]}
  else if String.eqb contents "" then Some ∅
  else None.

(** A Linux desktop on which every file operation is allowed, except
    perhaps [mkpath]. *)
Definition sample_platform (location : string) (mkpath_ok : bool) : Platform :=
  MkPlatform Q_OS_LINUX location (fun _ => mkpath_ok) (fun _ _ => true)
    (fun _ => true) sample_ini (fun _ => true) (fun _ _ => None)
    (fun _ => MkQColor 0 0 0) 0.

(** A first run: only the bundled default configuration exists. *)
Definition fresh_disk : FileSystem :=
  MkFS ∅ {[ ":/xfb.conf" := MkFile "" 0x4444 ]}.

(** A later run: the user's configuration file is in place. *)
Definition user_disk (contents : string) : FileSystem :=
  MkFS {[ "/home/u/.config/XFB" ]}
       {[ "/home/u/.config/XFB/xfb.conf" := MkFile contents 0x6044;
          ":/xfb.conf" := MkFile "" 0x4444 ]}.

(** ** Further observations *)


(** The time a run spends in [QThread::msleep], in milliseconds. *)
Fixpoint total_sleep (tr : list Event) : Z :=
  match tr with
  | [] => 0
  | MSleep ms :: tr' => ms + total_sleep tr'
  | _ :: tr' => total_sleep tr'
  end.

(** Whether a splash message still waits to be drawn: after a message the
    next call has to be [processEvents] or a pause; [None] when it was not. *)
Definition flush_step (pending : option bool) (e : Event) : option bool :=
  match pending with
  | None => None
  | Some true =>
      match e with
      | ProcessEvents | MSleep _ => Some false
      | _ => None
      end
  | Some false =>
      match e with
      | SplashMessage _ _ _ => Some true
      | _ => Some false
      end
  end.

(** A platform with a Portuguese catalogue that knows one message. *)
Definition sample_ini_pt (contents : string) : option (gmap string string) :=
  if String.eqb contents "Language=pt" then Some {[ "Language" := "pt" ]}
  else if String.eqb contents "DarkMode=true" then
    Some {[ "DarkMode" := "true" ]}
  else None.

Definition sample_platform_pt : Platform :=
  MkPlatform Q_OS_LINUX "/home/u/.config/XFB" (fun _ => false)
    (fun _ _ => false) (fun _ => false) sample_ini_pt
    (fun qm => String.eqb qm "pt-catalogue")
    (fun qm text =>
       if String.eqb qm "pt-catalogue" && String.eqb text "Applying theme..."
       then Some "A aplicar o tema..." else None)
    (fun _ => MkQColor 0 0 0) 0.

(** A later run with all bundled resources in place. *)
Definition full_disk (contents : string) : FileSystem :=
  MkFS {[ "/home/u/.config/XFB" ]}
       {[ "/home/u/.config/XFB/xfb.conf" := MkFile contents 0x6044;
          ":/xfb.conf" := MkFile "" 0x4444;
          ":/portugues.qm" := MkFile "pt-catalogue" 0x4444;
          ":/resources/stylesheet.qss" := MkFile "QWidget {}" 0x4444;
          ":/resources/darkstylesheet.qss" := MkFile "QWidget {color: white}"
                                                     0x4444 ]}.

Definition is_critical (e : Event) : bool :=
  match e with Log Critical _ => true | _ => false end.

(** The calls made before and after configuration file handling. *)
Definition boot_step (e : Event) : bool :=
  match e with
  | PutEnv _ _ | SetDesktopSettingsAware _ | NewQApplication | SetWindowIcon _
  | SetApplicationName _ | SetOrganizationName _ | SetStyle _
  | NewSplashScreen _ | SplashShow | SplashMessage _ _ _ | ProcessEvents => true
  | _ => false
  end.

Definition window_step (e : Event) : bool :=
  match e with
  | SplashMessage _ _ _ | ProcessEvents | NewPlayer | MSleep _ | ShowFullScreen
  | Show | SplashFinish | Exec => true
  | _ => false
  end.

Definition outside_configuration (e : Event) : bool :=
  boot_step e || settings_step e || locale_step e || theme_step e
  || window_step e.

(** Calls that change the file system. *)
Definition writes_disk (e : Event) : bool :=
  match e with
  | Mkpath _ | FileCopy _ _ | SetPermissions _ _ => true
  | _ => false
  end.

(** Calls on the splash screen's visibility, the main window and the event
    loop. *)
Definition is_handover (e : Event) : bool :=
  match e with
  | SplashShow | SplashHide | SplashFinish | NewPlayer | ShowFullScreen | Show
  | Exec => true
  | _ => false
  end.

(** Calls that configure the process and the toolkit before start-up work
    begins. *)
Definition is_setup (e : Event) : bool :=
  match e with
  | PutEnv _ _ | SetDesktopSettingsAware _ | NewQApplication | SetWindowIcon _
  | SetApplicationName _ | SetOrganizationName _ | SetStyle _
  | NewSplashScreen _ => true
  | _ => false
  end.

(** ** Reasoning about runs *)

(** Unfolds the monad and the toolkit calls, and nothing of the data. *)
Ltac run :=
  cbv beta iota zeta delta
    [mbind M_bind mret M_ret emit return_ get_world put_fs put_app
     trace final flow fs qapp translators palette styleSheet dirs files
     qputenv QApplication_setDesktopSettingsAware QApplication_new
     a_setWindowIcon QCoreApplication_setApplicationName
     QCoreApplication_setOrganizationName QApplication_setStyle
     QSplashScreen_new splash_show splash_hide splash_showMessage
     splash_finish a_processEvents QObject_tr qDebug qInfo qWarning qCritical
     QMessageBox_critical QStandardPaths_writableLocation QDir_exists
     QDir_mkpath QFile_exists QFile_copy QFile_setPermissions QSettings_new
     settings_value tr_load a_installTranslator QThread_msleep a_setPalette
     styleFile_open styleFile_readAll styleFile_close a_setStyleSheet
     player_new w_showFullScreen w_show a_exec
     showMessage_tr critical_tr Datatypes.app negb andb orb].

Ltac open_world w :=
  let ds := fresh "ds" in
  let fl := fresh "fl" in
  let trs := fresh "trs" in
  let pal := fresh "pal" in
  let css := fresh "css" in
  destruct w as [[ds fl] [trs pal css]].

Lemma run_bind {A B : Type} (m : M A) (f : A -> M B) (w : World) :
  (m ≫= f) w =
  match flow (m w) with
  | Continue x =>
      MkRun (trace (m w) ++ trace (f x (final (m w))))
            (final (f x (final (m w)))) (flow (f x (final (m w))))
  | Return z => MkRun (trace (m w)) (final (m w)) (Return z)
  end.
Proof.
  unfold mbind, M_bind. destruct (m w) as [t w' [x|z]]; cbn; [|reflexivity].
  destruct (f x w'); reflexivity.
Qed.

Lemma bind_continue {A B : Type} (m : M A) (f : A -> M B) w tr w' x :
  m w = MkRun tr w' (Continue x) ->
  (m ≫= f) w = MkRun (tr ++ trace (f x w')) (final (f x w')) (flow (f x w')).
Proof. intros H. rewrite run_bind, H. reflexivity. Qed.

Lemma bind_return {A B : Type} (m : M A) (f : A -> M B) w tr w' z :
  m w = MkRun tr w' (Return z) ->
  (m ≫= f) w = MkRun tr w' (Return z).
Proof. intros H. rewrite run_bind, H. reflexivity. Qed.

(** *** The stages one by one *)

Lemma application_setup_run plat w :
  application_setup plat w = MkRun (take 8 (boot_trace plat)) w (Continue tt).
Proof. reflexivity. Qed.

Lemma splash_screen_initialization_run plat disk :
  splash_screen_initialization plat (MkWorld disk initial_app) =
  MkRun (drop 8 (boot_trace plat)) (MkWorld disk initial_app) (Continue tt).
Proof. reflexivity. Qed.

Lemma load_settings_run plat path w :
  load_settings plat path w =
  let prefs := preferences (QSettings_read plat (fs w) path) in
  MkRun [SplashMessage
           (translate plat (translators (qapp w)) "Loading settings...")
           alignit msgColor;
         ProcessEvents; SettingsOpen path;
         SettingsValue "Language"; SettingsValue "FullScreen";
         SettingsValue "DarkMode";
         Log Debug [LText "Settings Loaded - Language:"; LString prefs.1.1;
                    LText "FullScreen:"; LBool prefs.1.2;
                    LText "DarkMode:"; LBool prefs.2]]
        w (Continue prefs).
Proof. open_world w. reflexivity. Qed.

Lemma theme_application_run plat darkMode w :
  theme_application plat darkMode w =
  let text := translate plat (translators (qapp w)) "Applying theme..." in
  let p := setColors plat (palette_colors darkMode) in
  let head :=
    [SplashMessage text alignit msgColor; ProcessEvents; SetPalette p;
     Log Debug [LText (if darkMode then "Set modern dark palette."
                       else "Set modern light palette.")];
     FileOpen (qssFilePath darkMode)] in
  match files (fs w) !! qssFilePath darkMode with
  | Some f =>
      MkRun (head ++ [SetStyleSheet (contents f);
                      FileClose (qssFilePath darkMode);
                      Log Debug [LText "Applied main global stylesheet:";
                                 LString (qssFilePath darkMode)]])
            (MkWorld (fs w) (MkApp (translators (qapp w)) (Some p) (contents f)))
            (Continue tt)
  | None =>
      MkRun (head ++ [Log Warning [LText "Could not open main stylesheet file:";
                                   LString (qssFilePath darkMode)]])
            (MkWorld (fs w)
                     (MkApp (translators (qapp w)) (Some p) (styleSheet (qapp w))))
            (Continue tt)
  end.
Proof.
  open_world w. unfold theme_application.
  destruct darkMode; cbn [qssFilePath palette_colors]; run;
    (destruct (fl !! _) eqn:E; run; rewrite ?E; reflexivity).
Qed.

Lemma create_main_window_run plat w :
  create_main_window plat w =
  MkRun [SplashMessage
           (translate plat (translators (qapp w)) "Loading main window...")
           alignit msgColor;
         ProcessEvents; NewPlayer]
        w (Continue tt).
Proof. open_world w. reflexivity. Qed.

Lemma show_main_window_run plat fullScreen w :
  show_main_window plat fullScreen w =
  MkRun [SplashMessage
           (translate plat (translators (qapp w)) "XFB is Ready!")
           alignit msgColor;
         MSleep 300;
         if fullScreen then ShowFullScreen else Show;
         SplashFinish]
        w (Continue tt).
Proof. open_world w. destruct fullScreen; reflexivity. Qed.

Lemma translator_setup_run plat idioma w :
  translator_setup plat idioma w =
  let announce text :=
    [SplashMessage (translate plat (translators (qapp w)) text)
                   alignit msgColor;
     ProcessEvents] in
  let failed pre :=
    MkRun (pre ++ translation_warning plat w idioma) w (Continue tt) in
  let attempt text path :=
    match files (fs w) !! path with
    | Some f =>
        if qm_loadable plat (contents f) then
          MkRun (announce text ++
                 [TranslatorLoad path; InstallTranslator (Some (contents f));
                  Log Debug [LText "Installed translator for language:";
                             LString idioma]])
                (MkWorld (fs w)
                         (MkApp (contents f :: translators (qapp w))
                                (palette (qapp w)) (styleSheet (qapp w))))
                (Continue tt)
        else failed (announce text ++ [TranslatorLoad path])
    | None => failed (announce text ++ [TranslatorLoad path])
    end in
  if String.eqb idioma "pt" then
    attempt "Loading Portuguese GUI..." ":/portugues.qm"
  else if String.eqb idioma "fr" then
    attempt "Loading French GUI..." ":/frances.qm"
  else if String.eqb idioma "en" then
    MkRun (announce "Loading English GUI..." ++
           [Log Debug [LText "Using default English GUI."]])
          w (Continue tt)
  else failed (announce "Loading English GUI...").
Proof.
  open_world w. unfold translator_setup, translation_warning.
  destruct (String.eqb_spec idioma "pt") as [->|_].
  { change (String.eqb "pt" "en") with false. run.
    destruct (fl !! _) as [f|]; run; [destruct (qm_loadable plat _)|];
      reflexivity. }
  destruct (String.eqb_spec idioma "fr") as [->|_].
  { change (String.eqb "fr" "en") with false. run.
    destruct (fl !! _) as [f|]; run; [destruct (qm_loadable plat _)|];
      reflexivity. }
  destruct (String.eqb idioma "en"); reflexivity.
Qed.

Lemma configuration_file_handling_run plat w :
  configuration_file_handling plat w =
  let loc := writableLocation plat in
  let path := loc +:+ "/" +:+ configFileName in
  let res := ":/" +:+ configFileName in
  let tr_ := translate plat (translators (qapp w)) in
  let fatal pre text :=
    pre ++ [SplashHide; MessageBoxCritical (tr_ "Configuration Error") text] in
  if isEmpty loc then
    MkRun (fatal [Log Critical
                    [LText "Could not determine writable config location!"]]
                 (tr_ "Cannot find writable location for configuration."))
          w (Return 1)
  else
    let mk := [Log Info [LText "Creating configuration directory:";
                         LString loc];
               Mkpath loc] in
    if is_dir (fs w) loc || mkpath_succeeds plat loc then
      let made := if is_dir (fs w) loc then [] else mk in
      let ds := if is_dir (fs w) loc then dirs (fs w)
                else {[loc]} ∪ dirs (fs w) in
      match files (fs w) !! path with
      | Some _ =>
          MkRun (made ++ [Log Debug [LText "Using existing configuration file:";
                                     LString path]])
                (MkWorld (MkFS ds (files (fs w))) (qapp w)) (Continue path)
      | None =>
          let copy :=
            made ++
            [SplashMessage (tr_ "Setting up default configuration...")
                           alignit msgColor;
             ProcessEvents; FileCopy res path] in
          let failed resource_exists :=
            MkRun (fatal
                     (copy ++
                      [Log Critical
                         [LText "Failed to copy default configuration from";
                          LString res; LText "to"; LString path];
                       Log Critical [LText "Resource exists?";
                                     LBool resource_exists];
                       Log Critical
                         [LText "Check resource path and write permissions for";
                          LString loc]])
                     (tr_ "Could not copy default configuration file."))
                  (MkWorld (MkFS ds (files (fs w))) (qapp w)) (Return 1) in
          match files (fs w) !! res with
          | Some f =>
              if copy_succeeds plat res path then
                MkRun (copy ++
                       [Log Info [LText "Copied default configuration to:";
                                  LString path];
                        SetPermissions path 0x6044])
                      (MkWorld
                         (MkFS ds
                            (<[path :=
                                 MkFile (contents f)
                                   (if setPermissions_succeeds plat path
                                    then 0x6044 else permissions f)]>
                               (files (fs w))))
                         (qapp w))
                      (Continue path)
              else failed true
          | None => failed false
          end
      end
    else
      MkRun (fatal (mk ++ [Log Critical
                             [LText "Failed to create configuration directory:";
                              LString loc]])
                   (arg (tr_ ("Could not create configuration directory:"
                              +:+ LF +:+ "%1")) loc))
            w (Return 1).
Proof.
  open_world w. unfold configuration_file_handling. run.
  destruct (isEmpty (writableLocation plat)); run; [reflexivity|].
  destruct (is_dir _ (writableLocation plat)) eqn:D; run.
  - destruct (fl !! (writableLocation plat +:+ "/" +:+ configFileName))
      as [g|] eqn:E; run; rewrite ?E; [reflexivity|].
    destruct (fl !! (":/" +:+ configFileName)) as [f|] eqn:R; run;
      rewrite ?R; [|reflexivity].
    destruct (copy_succeeds plat _ _); run; rewrite ?R; [|reflexivity].
    rewrite lookup_insert_eq.
    destruct (setPermissions_succeeds plat _); run.
    + rewrite insert_insert_eq. reflexivity.
    + destruct f; reflexivity.
  - rewrite D.
    destruct (mkpath_succeeds plat (writableLocation plat)); run;
      [|reflexivity].
    destruct (fl !! (writableLocation plat +:+ "/" +:+ configFileName))
      as [g|] eqn:E; run; rewrite ?E; [reflexivity|].
    destruct (fl !! (":/" +:+ configFileName)) as [f|] eqn:R; run;
      rewrite ?R; [|reflexivity].
    destruct (copy_succeeds plat _ _); run; rewrite ?R; [|reflexivity].
    rewrite lookup_insert_eq.
    destruct (setPermissions_succeeds plat _); run.
    + rewrite insert_insert_eq. reflexivity.
    + destruct f; reflexivity.
Qed.

Lemma translator_setup_flow plat idioma w :
  flow (translator_setup plat idioma w) = Continue tt.
Proof.
  rewrite translator_setup_run. cbv zeta.
  repeat (destruct (String.eqb idioma _); [repeat case_match; reflexivity|]).
  reflexivity.
Qed.

Lemma theme_application_flow plat darkMode w :
  flow (theme_application plat darkMode w) = Continue tt.
Proof.
  rewrite theme_application_run. cbv zeta. case_match; reflexivity.
Qed.

Lemma run_continue {A : Type} (r : Run A) (x : A) :
  flow r = Continue x -> r = MkRun (trace r) (final r) (Continue x).
Proof. destruct r; cbn; intros ->; reflexivity. Qed.

(** *** The run of [main] in terms of its stages *)

Ltac next_stage H :=
  erewrite bind_continue by H; cbn [trace final flow].

Lemma main_fatal plat disk tr1 w1 z :
  configuration_file_handling plat (MkWorld disk initial_app)
    = MkRun tr1 w1 (Return z) ->
  main plat disk = MkRun (boot_trace plat ++ tr1) w1 (Return z).
Proof.
  intros H. unfold main, main_body.
  next_stage ltac:(apply application_setup_run).
  next_stage ltac:(apply splash_screen_initialization_run).
  erewrite bind_return by exact H.
  reflexivity.
Qed.

Lemma main_success plat disk tr1 w1 path :
  configuration_file_handling plat (MkWorld disk initial_app)
    = MkRun tr1 w1 (Continue path) ->
  let prefs := preferences (QSettings_read plat (fs w1) path) in
  let r2 := load_settings plat path w1 in
  let r3 := translator_setup plat prefs.1.1 w1 in
  let r4 := theme_application plat prefs.2 (final r3) in
  let r5 := create_main_window plat (final r4) in
  let r6 := show_main_window plat prefs.1.2 (final r5) in
  main plat disk =
  MkRun (boot_trace plat ++ tr1 ++ trace r2 ++ trace r3 ++ trace r4
         ++ trace r5 ++ trace r6 ++ [Exec])
        (final r4) (Return (exec_result plat)).
Proof.
  intros H prefs r2 r3 r4 r5 r6. unfold main, main_body.
  next_stage ltac:(apply application_setup_run).
  next_stage ltac:(apply splash_screen_initialization_run).
  next_stage ltac:(exact H).
  next_stage ltac:(apply load_settings_run).
  fold prefs. subst r2. rewrite load_settings_run. cbn [trace]. fold prefs.
  destruct prefs as [[idioma fullScreen] darkMode].
  cbn [fst snd] in *.
  next_stage ltac:(apply run_continue, translator_setup_flow).
  fold r3.
  next_stage ltac:(apply run_continue, theme_application_flow).
  fold r4.
  next_stage ltac:(apply create_main_window_run).
  next_stage ltac:(apply show_main_window_run).
  subst r5 r6. rewrite create_main_window_run. cbn [final trace].
  rewrite show_main_window_run. cbn [final trace].
  reflexivity.
Qed.

(** *** The calls of each stage *)

Ltac trace_facts :=
  cbn [app];
  repeat first [apply Forall_cons; split; [reflexivity|] | apply Forall_nil_2].

Ltac fatal_outcome :=
  split; [reflexivity|]; eexists _, _, _; split; [reflexivity|];
  solve [trace_facts].

Lemma configuration_file_handling_outcome plat w :
  let r := configuration_file_handling plat w in
  match flow r with
  | Continue path =>
      path = writableLocation plat +:+ "/" +:+ configFileName
      /\ Forall (fun e => configuration_step e = true) (trace r)
  | Return z =>
      z = 1%Z
      /\ exists pre title text,
           trace r = pre ++ [SplashHide; MessageBoxCritical title text]
           /\ Forall (fun e => configuration_step e = true) pre
  end.
Proof.
  rewrite configuration_file_handling_run. cbv zeta.
  destruct (isEmpty _); [fatal_outcome|].
  destruct (is_dir _ _); cbn [orb]; [|destruct (mkpath_succeeds _ _)];
    [| |fatal_outcome].
  all: destruct (files (fs w) !! (_ +:+ _ +:+ configFileName));
    [split; [reflexivity|]; solve [trace_facts]|].
  all: destruct (files (fs w) !! _);
    [destruct (copy_succeeds _ _ _)|]; cbn [flow trace].
  all: first [fatal_outcome | split; [reflexivity|]; solve [trace_facts]].
Qed.

Lemma load_settings_steps plat path w :
  Forall (fun e => settings_step e = true) (trace (load_settings plat path w)).
Proof. rewrite load_settings_run. cbv zeta. cbn [trace]. trace_facts. Qed.

Lemma translator_setup_steps plat idioma w :
  Forall (fun e => locale_step e = true) (trace (translator_setup plat idioma w)).
Proof.
  rewrite translator_setup_run. cbv zeta. unfold translation_warning.
  repeat (destruct (String.eqb idioma _);
          [repeat case_match; cbn [trace]; solve [trace_facts]|]).
  cbn [trace]. trace_facts.
Qed.

Lemma theme_application_steps plat darkMode w :
  Forall (fun e => theme_step e = true) (trace (theme_application plat darkMode w)).
Proof.
  rewrite theme_application_run. cbv zeta.
  case_match; cbn [trace]; trace_facts.
Qed.

(** The parts of the world each later stage leaves alone. *)
Lemma translator_setup_final plat idioma w :
  let r := translator_setup plat idioma w in
  fs (final r) = fs w
  /\ palette (qapp (final r)) = palette (qapp w)
  /\ styleSheet (qapp (final r)) = styleSheet (qapp w).
Proof.
  rewrite translator_setup_run. cbv zeta.
  repeat (destruct (String.eqb idioma _);
          [repeat case_match; cbn [final]; auto|]).
  cbn [final]. auto.
Qed.

Lemma configuration_file_handling_qapp plat w :
  qapp (final (configuration_file_handling plat w)) = qapp w.
Proof.
  rewrite configuration_file_handling_run. cbv zeta.
  destruct (isEmpty _); [reflexivity|].
  destruct (is_dir _ _); cbn [orb]; [|destruct (mkpath_succeeds _ _)];
    [| |reflexivity].
  all: destruct (files (fs w) !! (_ +:+ _ +:+ configFileName));
    [reflexivity|].
  all: destruct (files (fs w) !! _); [destruct (copy_succeeds _ _ _)|];
    reflexivity.
Qed.

(** Past the configuration stage, [main] always reaches the event loop. *)
Lemma main_enters_event_loop plat disk tr1 w1 path :
  configuration_file_handling plat (MkWorld disk initial_app)
    = MkRun tr1 w1 (Continue path) ->
  let prefs := preferences (QSettings_read plat (fs w1) path) in
  last (trace (main plat disk)) = Some Exec
  /\ flow (main plat disk) = Return (exec_result plat)
  /\ final (main plat disk)
     = final (theme_application plat prefs.2
                (final (translator_setup plat prefs.1.1 w1)))
  /\ qapp w1 = initial_app.
Proof.
  intros Hcfg prefs. rewrite (main_success _ _ _ _ _ Hcfg). cbn [trace flow final].
  split; [|split; [reflexivity|split; [reflexivity|]]].
  - rewrite !(assoc app). apply last_snoc.
  - pose proof (configuration_file_handling_qapp plat (MkWorld disk initial_app))
      as H. by rewrite Hcfg in H.
Qed.

(** *** Membership in an explicit trace *)

Ltac in_trace H :=
  repeat (apply elem_of_cons in H as [H|H];
          [first [discriminate H | injection H as ?; subst]|]);
  try (apply elem_of_nil in H; contradiction).

Ltac trace_has := cbn [app]; repeat constructor.

(** ** Theme application *)

Lemma setColors_table plat darkMode role c :
  (role, c) ∈ palette_colors darkMode ->
  setColors plat (palette_colors darkMode) role = c.
Proof.
  intros H. destruct darkMode; cbn [palette_colors] in H;
    unfold darkPalette_colors, lightPalette_colors in H;
    repeat (apply elem_of_cons in H as [H|H];
            [injection H as -> ->; reflexivity|]);
    by apply elem_of_nil in H.
Qed.

Lemma setColors_other plat darkMode role :
  role ∉ (palette_colors darkMode).*1 ->
  setColors plat (palette_colors darkMode) role = defaultPalette plat role.
Proof.
  intros H. destruct darkMode, role; try reflexivity;
    exfalso; apply H; cbn; repeat constructor.
Qed.

(** C5, as stated: the selected colour table has ten entries.  It does not:
    either table of [main] has twelve, and on the sample platform the palette
    that the theme application installs differs from the default palette on
    twelve roles, for the dark and for the light variant. *)
Lemma palette_table_not_ten_entries :
  ~ (forall darkMode, length (palette_colors darkMode) = 10%nat)
  /\ (let plat := sample_platform "/home/u/.config/XFB" true in
      let w := MkWorld (user_disk "") initial_app in
      (exists p,
         SetPalette p ∈ trace (theme_application plat true w)
         /\ length (changed_roles p (defaultPalette plat)) = 12%nat)
      /\ (exists p,
            SetPalette p ∈ trace (theme_application plat false w)
            /\ length (changed_roles p (defaultPalette plat)) = 12%nat)).
Proof.
  split; [intros H; specialize (H true); discriminate H|].
  cbv zeta. split.
  - exists (setColors (sample_platform "/home/u/.config/XFB" true)
                      darkPalette_colors).
    split; [|vm_compute; reflexivity].
    rewrite theme_application_run. cbv zeta. case_match; trace_has.
  - exists (setColors (sample_platform "/home/u/.config/XFB" true)
                      lightPalette_colors).
    split; [|vm_compute; reflexivity].
    rewrite theme_application_run. cbv zeta. case_match; trace_has.
Qed.

(** C5, amended: the theme is selected by [darkMode] alone.  For every
    platform and world, the one palette applied is the default palette with
    the twelve roles of the selected table set, each role to the colour of
    the table, and the one stylesheet opened is that of the variant. *)
Theorem theme_selected_by_darkMode plat darkMode w :
  let r := theme_application plat darkMode w in
  let table := palette_colors darkMode in
  (forall p, SetPalette p ∈ trace r <-> p = setColors plat table)
  /\ (forall path, FileOpen path ∈ trace r <-> path = qssFilePath darkMode)
  /\ palette (qapp (final r)) = Some (setColors plat table)
  /\ length table = 12%nat
  /\ NoDup table.*1
  /\ (forall role c, (role, c) ∈ table -> setColors plat table role = c)
  /\ (forall role, role ∉ table.*1 ->
        setColors plat table role = defaultPalette plat role).
Proof.
  cbv zeta. rewrite theme_application_run. cbv zeta.
  split; [|split; [|split; [|split; [|split; [|split]]]]].
  - intros p. case_match; cbn [trace app];
      (split; [intros Hin; in_trace Hin; reflexivity | intros ->; trace_has]).
  - intros path. case_match; cbn [trace app];
      (split; [intros Hin; in_trace Hin; reflexivity | intros ->; trace_has]).
  - case_match; reflexivity.
  - destruct darkMode; reflexivity.
  - destruct darkMode; compute_done.
  - apply setColors_table.
  - apply setColors_other.
Qed.

(** ** Translator setup *)

Lemma steps_of (p : Event -> bool) (l : list Event) (e : Event) :
  Forall (fun e => p e = true) l -> e ∈ l -> p e = true.
Proof. intros H Hin. by apply (proj1 (Forall_forall _ _) H). Qed.

Lemma main_cases plat disk :
  (exists pre title text w1,
      main plat disk =
      MkRun (boot_trace plat ++ pre ++ [SplashHide; MessageBoxCritical title text])
            w1 (Return 1)
      /\ Forall (fun e => configuration_step e = true) pre)
  \/ (exists tr1 w1,
      configuration_file_handling plat (MkWorld disk initial_app) =
      MkRun tr1 w1
            (Continue (writableLocation plat +:+ "/" +:+ configFileName))
      /\ Forall (fun e => configuration_step e = true) tr1).
Proof.
  pose proof (configuration_file_handling_outcome plat (MkWorld disk initial_app))
    as H. cbv zeta in H.
  destruct (configuration_file_handling plat _) as [tr1 w1 [path|z]] eqn:E;
    cbn [flow trace] in H.
  - destruct H as [-> H]. right. eauto.
  - destruct H as [-> (pre & title & text & -> & H)]. left.
    exists pre, title, text, w1. split; [|exact H].
    by apply main_fatal.
Qed.

Lemma translator_setup_loads plat idioma w path :
  TranslatorLoad path ∈ trace (translator_setup plat idioma w) <->
  (idioma = "pt" /\ path = ":/portugues.qm")
  \/ (idioma = "fr" /\ path = ":/frances.qm").
Proof.
  rewrite translator_setup_run. cbv zeta. unfold translation_warning.
  destruct (String.eqb_spec idioma "pt") as [->|Hpt].
  { repeat case_match; cbn [trace app];
      (split; [intros Hin; in_trace Hin; auto
              | intros [[_ ->]|[? _]]; [trace_has | discriminate]]). }
  destruct (String.eqb_spec idioma "fr") as [->|Hfr].
  { repeat case_match; cbn [trace app];
      (split; [intros Hin; in_trace Hin; auto
              | intros [[? _]|[_ ->]]; [discriminate | trace_has]]). }
  destruct (String.eqb idioma "en"); cbn [trace app];
    (split; [intros Hin; in_trace Hin | intros [[? _]|[? _]]; contradiction]).
Qed.

(** C9: a translation resource is loaded for the codes "pt" and "fr" only,
    from ":/portugues.qm" and ":/frances.qm"; for every other code, "en"
    included, the translator setup loads nothing, and no other stage of
    [main] loads a translation at all. *)
Theorem translations_loaded_for_pt_fr_only plat idioma w disk path :
  (TranslatorLoad path ∈ trace (translator_setup plat idioma w) <->
   (idioma = "pt" /\ path = ":/portugues.qm")
   \/ (idioma = "fr" /\ path = ":/frances.qm"))
  /\ (TranslatorLoad path ∈ trace (main plat disk) ->
      path = ":/portugues.qm" \/ path = ":/frances.qm").
Proof.
  split; [apply translator_setup_loads|].
  destruct (main_cases plat disk)
    as [(pre & title & text & w1 & -> & Hpre)|(tr1 & w1 & Hcfg & Htr1)].
  - cbn [trace]. rewrite !elem_of_app. intros [Hin|[Hin|Hin]].
    + unfold boot_trace in Hin. in_trace Hin.
    + apply (steps_of _ _ _ Hpre) in Hin. discriminate Hin.
    + in_trace Hin.
  - rewrite (main_success _ _ _ _ _ Hcfg). cbn [trace].
    rewrite !elem_of_app. intros [Hin|[Hin|[Hin|[Hin|[Hin|[Hin|[Hin|Hin]]]]]]].
    + unfold boot_trace in Hin. in_trace Hin.
    + apply (steps_of _ _ _ Htr1) in Hin. discriminate Hin.
    + apply (steps_of _ _ _ (load_settings_steps _ _ _)) in Hin.
      discriminate Hin.
    + apply translator_setup_loads in Hin as [[_ ->]|[_ ->]]; auto.
    + apply (steps_of _ _ _ (theme_application_steps _ _ _)) in Hin.
      discriminate Hin.
    + rewrite create_main_window_run in Hin. cbn [trace] in Hin. in_trace Hin.
    + rewrite show_main_window_run in Hin. cbn [trace] in Hin.
      destruct (preferences _).1.2; in_trace Hin.
    + in_trace Hin.
Qed.

(** C4: for a language code other than "en" whose translation cannot be
    loaded (a code without a catalogue, such as "xx", or "pt" or "fr" when
    the catalogue is missing or not loadable), the translator setup installs
    nothing and leaves the world as it was, ends with the warning (log entry,
    red splash message, pause of 1500 ms) and then lets [main] continue; the
    warning is the same list of calls whatever the cause.  When that code is
    the stored Language preference, the whole run of [main] installs no
    translator, ends in the event loop, and leaves [QObject::tr] without any
    catalogue. *)
Theorem unavailable_translation_falls_back plat idioma w :
  idioma <> "en" ->
  (idioma = "pt" -> loads plat (fs w) ":/portugues.qm" = false) ->
  (idioma = "fr" -> loads plat (fs w) ":/frances.qm" = false) ->
  let r := translator_setup plat idioma w in
  (forall tr, InstallTranslator tr ∉ trace r)
  /\ final r = w
  /\ (exists pre, trace r = pre ++ translation_warning plat w idioma)
  /\ translation_warning plat w idioma =
       [Log Warning [LText "Failed to load translator file for language:";
                     LString idioma];
        SplashMessage
          (translate plat (translators (qapp w)) "Failed to load translation!")
          alignit (MkQColor 255 0 0);
        MSleep 1500]
  /\ flow r = Continue tt
  /\ (forall disk tr1 path,
        configuration_file_handling plat (MkWorld disk initial_app)
          = MkRun tr1 w (Continue path) ->
        (preferences (QSettings_read plat (fs w) path)).1.1 = idioma ->
        translators (qapp (final (main plat disk))) = []
        /\ last (trace (main plat disk)) = Some Exec
        /\ forall tr, InstallTranslator tr ∉ trace (main plat disk)).
Proof.
  intros Hen Hpt Hfr.
  assert (let r := translator_setup plat idioma w in
          (forall tr, InstallTranslator tr ∉ trace r)
          /\ final r = w
          /\ (exists pre, trace r = pre ++ translation_warning plat w idioma)
          /\ flow r = Continue tt) as Hstage.
  { cbv zeta. rewrite translator_setup_run. cbv zeta.
    unfold loads in Hpt, Hfr.
    destruct (String.eqb_spec idioma "pt") as [->|_].
    { specialize (Hpt eq_refl).
      destruct (files (fs w) !! ":/portugues.qm") as [f|] eqn:E;
        cbn in Hpt; rewrite ?Hpt; cbn [trace final flow];
        (repeat split; eauto); intros tr Hin; cbn in Hin; in_trace Hin. }
    destruct (String.eqb_spec idioma "fr") as [->|_].
    { specialize (Hfr eq_refl).
      destruct (files (fs w) !! ":/frances.qm") as [f|] eqn:E;
        cbn in Hfr; rewrite ?Hfr; cbn [trace final flow];
        (repeat split; eauto); intros tr Hin; cbn in Hin; in_trace Hin. }
    destruct (String.eqb_spec idioma "en") as [->|_]; [contradiction|].
    cbn [trace final flow].
    repeat split; eauto. intros tr Hin. cbn in Hin. in_trace Hin. }
  cbv zeta in *. destruct Hstage as (Hnone & Hfinal & Hwarn & Hflow).
  do 3 (split; [assumption|]). split; [reflexivity|]. split; [assumption|].
  intros disk tr1 path Hcfg Hlang.
  destruct (main_enters_event_loop _ _ _ _ _ Hcfg) as (Hlast & _ & Hmain & Happ).
  cbv zeta in Hmain. rewrite Hlang, Hfinal in Hmain.
  split; [|split; [exact Hlast|]].
  - rewrite Hmain, theme_application_run. cbv zeta.
    case_match; cbn [final qapp translators]; by rewrite Happ.
  - pose proof (configuration_file_handling_outcome plat
                  (MkWorld disk initial_app)) as Hout.
    cbv zeta in Hout. rewrite Hcfg in Hout. cbn [flow trace] in Hout.
    destruct Hout as [_ Htr1].
    intros tr. rewrite (main_success _ _ _ _ _ Hcfg). cbn [trace].
    rewrite Hlang.
    rewrite !elem_of_app. intros [Hin|[Hin|[Hin|[Hin|[Hin|[Hin|[Hin|Hin]]]]]]].
    + unfold boot_trace in Hin. in_trace Hin.
    + apply (steps_of _ _ _ Htr1) in Hin. discriminate Hin.
    + apply (steps_of _ _ _ (load_settings_steps _ _ _)) in Hin.
      discriminate Hin.
    + exact (Hnone tr Hin).
    + apply (steps_of _ _ _ (theme_application_steps _ _ _)) in Hin.
      discriminate Hin.
    + rewrite create_main_window_run in Hin. cbn [trace] in Hin. in_trace Hin.
    + rewrite show_main_window_run in Hin. cbn [trace] in Hin.
      destruct (preferences _).1.2; in_trace Hin.
    + in_trace Hin.
Qed.

Lemma unavailable_translation_falls_back_witness :
  let plat := sample_platform "/home/u/.config/XFB" true in
  let w := MkWorld (user_disk "Language=xx") initial_app in
  ("xx" <> "en"
   /\ (exists pre,
         trace (translator_setup plat "xx" w)
         = pre ++ translation_warning plat w "xx")
   /\ final (translator_setup plat "xx" w) = w
   /\ translators (qapp (final (main plat (user_disk "Language=xx")))) = [])
  /\ ("pt" <> "en"
      /\ loads plat (fs w) ":/portugues.qm" = false
      /\ exists pre,
           trace (translator_setup plat "pt" w)
           = pre ++ translation_warning plat w "pt").
Proof.
  cbv zeta. split.
  - split; [discriminate|].
    pose proof (unavailable_translation_falls_back
                  (sample_platform "/home/u/.config/XFB" true) "xx"
                  (MkWorld (user_disk "Language=xx") initial_app)) as H.
    cbv zeta in H.
    destruct H as (_ & Hw & Htr & _ & _ & Hmain); [discriminate ..|].
    split; [assumption|]. split; [assumption|].
    refine (proj1 (Hmain (user_disk "Language=xx") _
                     "/home/u/.config/XFB/xfb.conf" _ _));
      vm_compute; reflexivity.
  - split; [discriminate|]. split; [vm_compute; reflexivity|].
    pose proof (unavailable_translation_falls_back
                  (sample_platform "/home/u/.config/XFB" true) "pt"
                  (MkWorld (user_disk "Language=xx") initial_app)) as H.
    cbv zeta in H.
    destruct H as (_ & _ & Htr & _);
      [discriminate | intros _; vm_compute; reflexivity | discriminate |].
    assumption.
Defined.

(** ** Stylesheet *)

(** C7: when the stylesheet of the selected variant cannot be opened, the
    theme application logs a warning and hands over to the next statement of
    [main]; no stylesheet is set, and the palette it has just applied is
    the palette of the application.  In a run of [main] in which the
    stylesheet of the stored DarkMode preference is missing, the event loop
    is reached with that palette in place and no stylesheet. *)
Theorem missing_stylesheet_is_not_fatal plat darkMode w :
  files (fs w) !! qssFilePath darkMode = None ->
  let r := theme_application plat darkMode w in
  flow r = Continue tt
  /\ Log Warning [LText "Could not open main stylesheet file:";
                  LString (qssFilePath darkMode)] ∈ trace r
  /\ (forall sheet, SetStyleSheet sheet ∉ trace r)
  /\ (exists pre post,
        trace r = pre ++ SetPalette (setColors plat (palette_colors darkMode))
                      :: post
        /\ forall p, SetPalette p ∉ post)
  /\ final r =
     MkWorld (fs w)
             (MkApp (translators (qapp w))
                    (Some (setColors plat (palette_colors darkMode)))
                    (styleSheet (qapp w)))
  /\ (forall disk tr1 w1 path,
        configuration_file_handling plat (MkWorld disk initial_app)
          = MkRun tr1 w1 (Continue path) ->
        (preferences (QSettings_read plat (fs w1) path)).2 = darkMode ->
        files (fs w1) !! qssFilePath darkMode = None ->
        last (trace (main plat disk)) = Some Exec
        /\ flow (main plat disk) = Return (exec_result plat)
        /\ palette (qapp (final (main plat disk)))
           = Some (setColors plat (palette_colors darkMode))
        /\ styleSheet (qapp (final (main plat disk))) = "").
Proof.
  intros H. cbv zeta. split; [|split; [|split; [|split; [|split]]]].
  1-5: rewrite theme_application_run; cbv zeta; rewrite H;
    cbn [trace final flow app].
  - reflexivity.
  - trace_has.
  - intros sheet Hin. in_trace Hin.
  - eexists [_; _], _. split; [reflexivity|]. intros p Hin. in_trace Hin.
  - reflexivity.
  - intros disk tr1 w1 path Hcfg Hdark Hqss.
    destruct (main_enters_event_loop _ _ _ _ _ Hcfg)
      as (Hlast & Hflow & Hmain & Happ).
    cbv zeta in Hmain. rewrite Hdark in Hmain.
    destruct (translator_setup_final plat
                (preferences (QSettings_read plat (fs w1) path)).1.1 w1)
      as (Hfs & _ & Hcss).
    split; [exact Hlast|]. split; [exact Hflow|].
    rewrite Hmain, theme_application_run. cbv zeta. rewrite Hfs, Hqss.
    cbn [final qapp palette styleSheet]. split; [reflexivity|].
    by rewrite Hcss, Happ.
Qed.

Lemma missing_stylesheet_is_not_fatal_witness :
  let plat := sample_platform "/home/u/.config/XFB" true in
  let w := MkWorld (user_disk "") initial_app in
  files (fs w) !! qssFilePath true = None
  /\ flow (theme_application plat true w) = Continue tt
  /\ palette (qapp (final (theme_application plat true w)))
     = Some (setColors plat darkPalette_colors)
  /\ last (trace (main plat (user_disk ""))) = Some Exec.
Proof.
  cbv zeta. split; [vm_compute; reflexivity|].
  pose proof (missing_stylesheet_is_not_fatal
                (sample_platform "/home/u/.config/XFB" true) true
                (MkWorld (user_disk "") initial_app)) as H.
  cbv zeta in H. destruct H as (Hflow & _ & _ & _ & Hfinal & _);
    [vm_compute; reflexivity|].
  split; [exact Hflow|]. split; [rewrite Hfinal; reflexivity|].
  pose proof (missing_stylesheet_is_not_fatal
                (sample_platform "/home/u/.config/XFB" true) false
                (MkWorld (user_disk "") initial_app)) as H.
  cbv zeta in H. destruct H as (_ & _ & _ & _ & _ & Hmain);
    [vm_compute; reflexivity|].
  refine (proj1 (Hmain (user_disk "") _ _ "/home/u/.config/XFB/xfb.conf" _ _ _));
    vm_compute; reflexivity.
Defined.

(** ** Settings *)

Lemma unparseable_file_has_no_keys plat disk path f key :
  files disk !! path = Some f ->
  readIniFile plat (contents f) = None ->
  QSettings_read plat disk path !! key = None.
Proof.
  intros Hf Hini. unfold QSettings_read. rewrite Hf, Hini. apply lookup_empty.
Qed.

Lemma preferences_default (settings : gmap string string) :
  (forall key, key ∈ recognized_keys -> settings !! key = None) ->
  preferences settings = default_preferences.
Proof.
  intros H. unfold preferences, value.
  rewrite !H by (unfold recognized_keys; repeat constructor).
  reflexivity.
Qed.

(** C3: when the settings read from the configuration file have none of
    the keys Language, FullScreen and DarkMode, the loaded preferences are
    exactly ("en", false, false); a file that cannot be parsed is such a
    file; and loading settings never returns from [main]: for every file
    and platform it continues with some preferences and an unchanged
    world, and [main] goes on to the event loop whatever the file holds. *)
Theorem settings_default_when_keys_absent plat path w :
  (forall key, key ∈ recognized_keys ->
     QSettings_read plat (fs w) path !! key = None) ->
  flow (load_settings plat path w) = Continue ("en", false, false)
  /\ (forall plat' path' w',
        exists prefs,
          flow (load_settings plat' path' w') = Continue prefs
          /\ final (load_settings plat' path' w') = w')
  /\ (forall plat' path' w' f,
        files (fs w') !! path' = Some f ->
        readIniFile plat' (contents f) = None ->
        flow (load_settings plat' path' w') = Continue ("en", false, false))
  /\ (forall plat' disk tr1 w1 path',
        configuration_file_handling plat' (MkWorld disk initial_app)
          = MkRun tr1 w1 (Continue path') ->
        last (trace (main plat' disk)) = Some Exec
        /\ flow (main plat' disk) = Return (exec_result plat')).
Proof.
  intros H. split; [|split; [|split]].
  - rewrite load_settings_run. cbv zeta. cbn [flow].
    by rewrite preferences_default.
  - intros plat' path' w'. rewrite load_settings_run. cbv zeta. eauto.
  - intros plat' path' w' f Hf Hini. rewrite load_settings_run. cbv zeta.
    cbn [flow]. rewrite preferences_default; [reflexivity|].
    intros key _. by eapply unparseable_file_has_no_keys.
  - intros plat' disk tr1 w1 path' Hcfg.
    destruct (main_enters_event_loop _ _ _ _ _ Hcfg) as (Hlast & Hflow & _).
    auto.
Qed.

Lemma settings_default_when_keys_absent_witness :
  let plat := sample_platform "/home/u/.config/XFB" true in
  let path := "/home/u/.config/XFB/xfb.conf" in
  let w := MkWorld (user_disk "[General") initial_app in
  (forall key, key ∈ recognized_keys ->
     QSettings_read plat (fs w) path !! key = None)
  /\ flow (load_settings plat path w) = Continue ("en", false, false).
Proof.
  cbv zeta.
  assert (forall key, key ∈ recognized_keys ->
            QSettings_read (sample_platform "/home/u/.config/XFB" true)
              (fs (MkWorld (user_disk "[General") initial_app))
              "/home/u/.config/XFB/xfb.conf" !! key = None) as H.
  { intros key _.
    apply (unparseable_file_has_no_keys _ _ _ (MkFile "[General" 0x6044));
      vm_compute; reflexivity. }
  split; [exact H|].
  exact (proj1 (settings_default_when_keys_absent _ _ _ H)).
Defined.

(** ** Configuration file *)

(** C1: when the configuration file exists at the writable configuration
    path, configuration file handling leaves every file as it is (contents
    and permissions), copies nothing and sets no permissions; the same holds
    for a second run on the world the first one leaves, on any platform with
    the same configuration path. *)
Theorem existing_configuration_untouched plat plat' w f :
  let path := writableLocation plat +:+ "/" +:+ configFileName in
  files (fs w) !! path = Some f ->
  writableLocation plat' = writableLocation plat ->
  let r := configuration_file_handling plat w in
  let r' := configuration_file_handling plat' (final r) in
  (files (fs (final r)) = files (fs w)
   /\ (forall from to, FileCopy from to ∉ trace r)
   /\ (forall p perms, SetPermissions p perms ∉ trace r))
  /\ (files (fs (final r')) !! path = Some f
      /\ files (fs (final r')) = files (fs w)
      /\ (forall from to, FileCopy from to ∉ trace r')
      /\ (forall p perms, SetPermissions p perms ∉ trace r')).
Proof.
  intros path Hf Hloc.
  assert (forall pl v, writableLocation pl = writableLocation plat ->
            files (fs v) !! path = Some f ->
            let s := configuration_file_handling pl v in
            files (fs (final s)) = files (fs v)
            /\ (forall from to, FileCopy from to ∉ trace s)
            /\ (forall p perms, SetPermissions p perms ∉ trace s)) as Hrun.
  { intros pl v Hpl Hv. cbv zeta.
    rewrite configuration_file_handling_run. cbv zeta. rewrite Hpl.
    fold path. rewrite Hv.
    destruct (isEmpty _); [|destruct (is_dir _ _); cbn [orb];
                            [|destruct (mkpath_succeeds _ _)]];
      cbn [trace final fs files app];
      (split; [reflexivity|]); split; intros ? ? Hin; in_trace Hin. }
  cbv zeta.
  destruct (Hrun plat w eq_refl Hf) as (Hfiles & Hcopy & Hperm).
  split; [auto|].
  destruct (Hrun plat' (final (configuration_file_handling plat w)) Hloc)
    as (Hfiles' & Hcopy' & Hperm').
  { rewrite Hfiles. exact Hf. }
  rewrite Hfiles', Hfiles. auto.
Qed.

Lemma existing_configuration_untouched_witness :
  let plat := sample_platform "/home/u/.config/XFB" true in
  let first := configuration_file_handling plat (MkWorld fresh_disk initial_app) in
  let path := "/home/u/.config/XFB/xfb.conf" in
  files (fs (final first)) !! path = Some (MkFile "" 0x6044)
  /\ files (fs (final (configuration_file_handling plat (final first)))) !! path
     = Some (MkFile "" 0x6044).
Proof.
  cbv zeta.
  assert (files (fs (final (configuration_file_handling
                              (sample_platform "/home/u/.config/XFB" true)
                              (MkWorld fresh_disk initial_app))))
            !! "/home/u/.config/XFB/xfb.conf" = Some (MkFile "" 0x6044)) as H
    by (vm_compute; reflexivity).
  split; [exact H|].
  pose proof (existing_configuration_untouched
                (sample_platform "/home/u/.config/XFB" true)
                (sample_platform "/home/u/.config/XFB" true)
                _ _ H eq_refl) as [[Hfiles _] _].
  cbv zeta in Hfiles. rewrite Hfiles. exact H.
Defined.

(** ** Fatal paths of [main] *)

Lemma append_empty (s : string) : s +:+ "" = s.
Proof.
  induction s as [|c s IH]; [reflexivity|].
  change (String c (s +:+ "") = String c s). by rewrite IH.
Qed.

Lemma directory_error_text (loc : string) :
  arg ("Could not create configuration directory:" +:+ LF +:+ "%1") loc
  = "Could not create configuration directory:" +:+ LF +:+ loc.
Proof. vm_compute. repeat f_equal. apply append_empty. Qed.

Lemma isEmpty_false (s : string) : s <> "" -> isEmpty s = false.
Proof. by destruct s. Qed.

Lemma is_dir_false disk dir : dir ∉ dirs disk -> is_dir disk dir = false.
Proof. intros H. unfold is_dir. by apply bool_decide_eq_false. Qed.

(** C6: when the platform reports no writable configuration location,
    [main] logs the failure, hides the splash screen, shows the error dialog
    and returns 1; nothing else follows, in particular no call of the settings,
    translator, theme or main-window stages, and the world is as it was. *)
Theorem location_unavailable_is_fatal plat disk :
  writableLocation plat = "" ->
  let r := main plat disk in
  flow r = Return 1
  /\ exit_status r = 1%Z
  /\ trace r =
     boot_trace plat ++
     [Log Critical [LText "Could not determine writable config location!"];
      SplashHide;
      MessageBoxCritical "Configuration Error"
        "Cannot find writable location for configuration."]
  /\ Forall (fun e => loads_settings e = false /\ resolves_locale e = false
                      /\ applies_theme e = false
                      /\ constructs_window e = false) (trace r)
  /\ final r = MkWorld disk initial_app.
Proof.
  intros Hloc. cbv zeta.
  erewrite main_fatal.
  2:{ rewrite configuration_file_handling_run. cbv zeta. rewrite Hloc.
      reflexivity. }
  cbn [flow trace final]. unfold exit_status. cbn [flow].
  repeat split. unfold boot_trace. cbn [app].
  repeat first [apply Forall_cons; split; [repeat split|] | apply Forall_nil_2].
Qed.

Lemma location_unavailable_is_fatal_witness :
  writableLocation (sample_platform "" true) = ""
  /\ exit_status (main (sample_platform "" true) fresh_disk) = 1%Z.
Proof.
  split; [reflexivity|].
  exact (proj1 (proj2 (location_unavailable_is_fatal
                         (sample_platform "" true) fresh_disk eq_refl))).
Defined.

(** C2: when the configuration directory does not exist and cannot be
    created, [main] logs the failure, hides the splash screen, shows the
    error dialog and returns 1; no settings are loaded, no translation is
    loaded or installed, no palette or stylesheet is applied, no main window
    is constructed or shown, and the world is as it was. *)
Theorem directory_creation_failure_is_fatal plat disk :
  writableLocation plat <> "" ->
  writableLocation plat ∉ dirs disk ->
  mkpath_succeeds plat (writableLocation plat) = false ->
  let r := main plat disk in
  flow r = Return 1
  /\ exit_status r = 1%Z
  /\ trace r =
     boot_trace plat ++
     [Log Info [LText "Creating configuration directory:";
                LString (writableLocation plat)];
      Mkpath (writableLocation plat);
      Log Critical [LText "Failed to create configuration directory:";
                    LString (writableLocation plat)];
      SplashHide;
      MessageBoxCritical "Configuration Error"
        ("Could not create configuration directory:" +:+ LF
         +:+ writableLocation plat)]
  /\ Forall (fun e => loads_settings e = false /\ resolves_locale e = false
                      /\ applies_theme e = false
                      /\ constructs_window e = false) (trace r)
  /\ final r = MkWorld disk initial_app.
Proof.
  intros Hloc Hdir Hmk. cbv zeta.
  erewrite main_fatal.
  2:{ rewrite configuration_file_handling_run. cbv zeta.
      rewrite (isEmpty_false _ Hloc). cbn [fs].
      rewrite (is_dir_false _ _ Hdir), Hmk. cbn [orb qapp translators translate].
      rewrite directory_error_text. reflexivity. }
  cbn [flow trace final]. unfold exit_status. cbn [flow].
  repeat split. unfold boot_trace. cbn [app].
  repeat first [apply Forall_cons; split; [repeat split|] | apply Forall_nil_2].
Qed.

Lemma directory_creation_failure_is_fatal_witness :
  let plat := sample_platform "/home/u/.config/XFB" false in
  writableLocation plat <> ""
  /\ (writableLocation plat ∉ dirs fresh_disk)
  /\ mkpath_succeeds plat (writableLocation plat) = false
  /\ exit_status (main plat fresh_disk) = 1%Z
  /\ final (main plat fresh_disk) = MkWorld fresh_disk initial_app.
Proof.
  cbv zeta.
  assert (writableLocation (sample_platform "/home/u/.config/XFB" false) <> "")
    as H1 by discriminate.
  assert (writableLocation (sample_platform "/home/u/.config/XFB" false)
            ∉ dirs fresh_disk) as H2 by (cbn; apply not_elem_of_empty).
  pose proof (directory_creation_failure_is_fatal
                (sample_platform "/home/u/.config/XFB" false) fresh_disk
                H1 H2 eq_refl) as (_ & Hexit & _ & _ & Hfinal).
  repeat split; assumption.
Defined.

(** ** Splash screen and error dialog *)

Lemma dialogs_after_hide_app v t1 t2 :
  dialogs_after_hide v (t1 ++ t2)
  = dialogs_after_hide v t1 && dialogs_after_hide (foldl splash_step v t1) t2.
Proof.
  revert v. induction t1 as [|e t1 IH]; intros v; [reflexivity|].
  cbn. rewrite IH. by rewrite andb_assoc.
Qed.

Lemma dialogs_after_hide_sound v tr pre title text post :
  dialogs_after_hide v tr = true ->
  tr = pre ++ MessageBoxCritical title text :: post ->
  foldl splash_step v pre = false.
Proof.
  intros H ->. rewrite dialogs_after_hide_app in H.
  apply andb_true_iff in H as [_ H]. cbn in H.
  apply andb_true_iff in H as [H _]. by apply negb_true_iff in H.
Qed.

Lemma no_dialog_after_hide v tr :
  Forall (fun e => is_dialog e = false) tr -> dialogs_after_hide v tr = true.
Proof.
  intros H. revert v. induction H as [|e tr He _ IH]; intros v;
    [reflexivity|].
  cbn. rewrite He, IH. reflexivity.
Qed.

Lemma steps_no_dialog (p : Event -> bool) tr :
  (forall e, p e = true -> is_dialog e = false) ->
  Forall (fun e => p e = true) tr ->
  Forall (fun e => is_dialog e = false) tr.
Proof. intros Hp H. eapply Forall_impl; [exact H|exact Hp]. Qed.

Ltac by_kind := let e := fresh in intros e; destruct e; cbn; congruence.

Lemma last_app_singleton (l : list Event) (e : Event) : last (l ++ [e]) = Some e.
Proof. apply last_snoc. Qed.

(** C10: whenever [main] opens the error dialog, the calls made on the
    splash screen before it leave the splash screen hidden; and a run of
    [main] either reaches the event loop, or returns 1 right after hiding the
    splash screen and showing the dialog, in this order. *)
Theorem splash_hidden_before_error_dialog plat disk :
  let r := main plat disk in
  (forall pre title text post,
     trace r = pre ++ MessageBoxCritical title text :: post ->
     splash_visible pre = false)
  /\ ((last (trace r) = Some Exec
       /\ forall title text, MessageBoxCritical title text ∉ trace r)
      \/ (flow r = Return 1
          /\ exists pre title text,
               trace r = pre ++ [SplashHide; MessageBoxCritical title text]
               /\ splash_visible pre = true
               /\ forall e, e ∈ pre -> is_dialog e = false)).
Proof.
  cbv zeta.
  destruct (main_cases plat disk)
    as [(pre & title & text & w1 & -> & Hpre)|(tr1 & w1 & Hcfg & Htr1)].
  - cbn [trace flow].
    assert (Forall (fun e => is_dialog e = false) (boot_trace plat ++ pre))
      as Hquiet.
    { apply Forall_app. split; [unfold boot_trace; trace_facts|].
      eapply steps_no_dialog; [|exact Hpre]. by_kind. }
    assert (foldl splash_step false (boot_trace plat ++ pre) = true) as Hvis.
    { rewrite foldl_app. change (foldl splash_step false (boot_trace plat))
        with true.
      clear Hquiet. induction Hpre as [|e pre He _ IH]; [reflexivity|].
      cbn [foldl]. destruct e; try discriminate He; exact IH. }
    split.
    + intros pre' title' text' post' Heq. unfold splash_visible.
      eapply dialogs_after_hide_sound; [|exact Heq].
      rewrite (assoc app), dialogs_after_hide_app.
      rewrite (no_dialog_after_hide _ _ Hquiet). reflexivity.
    + right. split; [reflexivity|].
      exists (boot_trace plat ++ pre), title, text.
      split; [by rewrite (assoc app)|]. split; [exact Hvis|].
      intros e He. by apply (proj1 (Forall_forall _ _) Hquiet).
  - rewrite (main_success _ _ _ _ _ Hcfg). cbn [trace flow].
    rewrite create_main_window_run, show_main_window_run. cbn [trace].
    match goal with
    | |- context [boot_trace plat ++ ?rest] =>
        assert (Forall (fun e => is_dialog e = false) (boot_trace plat ++ rest))
          as Hquiet
    end.
    { apply Forall_app; split; [unfold boot_trace; trace_facts|].
      apply Forall_app; split;
        [eapply steps_no_dialog; [|exact Htr1]; by_kind|].
      apply Forall_app; split;
        [eapply steps_no_dialog; [|apply load_settings_steps]; by_kind|].
      apply Forall_app; split;
        [eapply steps_no_dialog; [|apply translator_setup_steps]; by_kind|].
      apply Forall_app; split;
        [eapply steps_no_dialog; [|apply theme_application_steps]; by_kind|].
      destruct (preferences _).1.2; trace_facts. }
    split.
    + intros pre' title' text' post' Heq. unfold splash_visible.
      eapply dialogs_after_hide_sound; [|exact Heq].
      by apply no_dialog_after_hide.
    + left. split.
      * rewrite !(assoc app). apply last_app_singleton.
      * intros title text Hin.
        apply (proj1 (Forall_forall _ _) Hquiet) in Hin. discriminate Hin.
Qed.

(** ** Display mode *)

(** C8: once the configuration file is in place, the run of [main] ends with
    exactly one call that shows the main window, [showFullScreen] when the
    stored FullScreen preference converts to true and [show] otherwise,
    followed by the end of the splash screen and the event loop; showing the
    main window depends on that flag only, whatever the platform and the
    world. *)
Theorem display_mode_follows_FullScreen plat disk tr1 w1 path :
  configuration_file_handling plat (MkWorld disk initial_app)
    = MkRun tr1 w1 (Continue path) ->
  let fullScreen :=
    toBool (value (QSettings_read plat (fs w1) path) "FullScreen"
                  (QVariant_Bool false)) in
  (exists pre,
     trace (main plat disk)
     = pre ++ [if fullScreen then ShowFullScreen else Show; SplashFinish; Exec]
     /\ Forall (fun e => is_display e = false) pre)
  /\ (forall plat' w' (b : bool),
        exists pre,
          show_main_window plat' b w'
          = MkRun (pre ++ [if b then ShowFullScreen else Show; SplashFinish])
                  w' (Continue tt)
          /\ Forall (fun e => is_display e = false) pre).
Proof.
  intros Hcfg fullScreen. split.
  - pose proof (configuration_file_handling_outcome plat
                  (MkWorld disk initial_app)) as Hout.
    cbv zeta in Hout. rewrite Hcfg in Hout. cbn [flow trace] in Hout.
    destruct Hout as [_ Htr1].
    rewrite (main_success _ _ _ _ _ Hcfg). cbn [trace].
    rewrite create_main_window_run, show_main_window_run. cbn [trace].
    change (preferences (QSettings_read plat (fs w1) path)).1.2
      with fullScreen.
    match goal with
    | |- exists pre,
           ?t0 ++ ?t1 ++ ?t2 ++ ?t3 ++ ?t4 ++ ?t5 ++ [?m; ?s; _; _] ++ _ = _
           /\ _ =>
        exists (t0 ++ t1 ++ t2 ++ t3 ++ t4 ++ t5 ++ [m; s])
    end.
    split.
    { rewrite <- !(assoc app). reflexivity. }
    apply Forall_app; split; [unfold boot_trace; trace_facts|].
    apply Forall_app; split;
      [eapply Forall_impl; [exact Htr1|by_kind]|].
    apply Forall_app; split;
      [eapply Forall_impl; [apply load_settings_steps|by_kind]|].
    apply Forall_app; split;
      [eapply Forall_impl; [apply translator_setup_steps|by_kind]|].
    apply Forall_app; split;
      [eapply Forall_impl; [apply theme_application_steps|by_kind]|].
    trace_facts.
  - intros plat' w' b. rewrite show_main_window_run.
    eexists [_; _]. split; [reflexivity|]. trace_facts.
Qed.

Lemma display_mode_follows_FullScreen_witness :
  let plat := sample_platform "/home/u/.config/XFB" true in
  let disk := user_disk "FullScreen=true" in
  flow (configuration_file_handling plat (MkWorld disk initial_app))
    = Continue "/home/u/.config/XFB/xfb.conf"
  /\ exists pre,
       trace (main plat disk) = pre ++ [ShowFullScreen; SplashFinish; Exec].
Proof.
  cbv zeta.
  assert (flow (configuration_file_handling
                  (sample_platform "/home/u/.config/XFB" true)
                  (MkWorld (user_disk "FullScreen=true") initial_app))
          = Continue "/home/u/.config/XFB/xfb.conf") as H
    by (vm_compute; reflexivity).
  split; [exact H|].
  destruct (display_mode_follows_FullScreen _ _ _ _ _ (run_continue _ _ H))
    as [[pre [Htr _]] _].
  exists pre. exact Htr.
Defined.

(** ** A first run, end to end *)

(** On a fresh installation the default configuration is copied and made
    writable, no preference is set, and [main] enters the event loop in a
    window, with the light palette and without translator. *)
Example fresh_installation_run :
  let plat := sample_platform "/home/u/.config/XFB" true in
  let r := main plat fresh_disk in
  files (fs (final r)) !! "/home/u/.config/XFB/xfb.conf"
    = Some (MkFile "" 0x6044)
  /\ palette (qapp (final r)) = Some (lightPalette plat)
  /\ translators (qapp (final r)) = []
  /\ drop 40 (trace r) = [Show; SplashFinish; Exec]
  /\ exit_status r = exec_result plat.
Proof. cbv zeta. repeat split; vm_compute; reflexivity. Qed.

(** ** What configuration file handling does to the file system *)

Lemma is_dir_created (dir : string) (ds : gset string) fl :
  is_dir (MkFS ({[dir]} ∪ ds) fl) dir = true.
Proof. unfold is_dir. apply bool_decide_eq_true. cbn. set_solver. Qed.

Ltac ready_dir D :=
  unfold is_dir in *; cbn [fs dirs];
  first [exact D | apply bool_decide_eq_true; set_solver].

Lemma configuration_file_handling_ready plat w tr1 w1 path :
  configuration_file_handling plat w = MkRun tr1 w1 (Continue path) ->
  path = writableLocation plat +:+ "/" +:+ configFileName
  /\ is_Some (files (fs w1) !! path)
  /\ is_dir (fs w1) (writableLocation plat) = true
  /\ qapp w1 = qapp w
  /\ isEmpty (writableLocation plat) = false.
Proof.
  rewrite configuration_file_handling_run. cbv zeta.
  destruct (isEmpty _); [discriminate|].
  destruct (is_dir (fs w) _) eqn:D; cbn [orb];
    [|destruct (mkpath_succeeds _ _); [|discriminate]].
  all: destruct (files (fs w) !! (_ +:+ _ +:+ configFileName)) eqn:E.
  1,3: intros ?; simplify_eq; cbn [fs files qapp]; rewrite E;
    (split; [reflexivity|]; split; [eauto|]; split; [ready_dir D|split; reflexivity]).
  all: destruct (files (fs w) !! (":/" +:+ configFileName));
    [destruct (copy_succeeds _ _ _)|]; try discriminate.
  all: intros ?; simplify_eq; cbn [fs files qapp].
  all: rewrite lookup_insert_eq;
    (split; [reflexivity|]; split; [eauto|]; split; [ready_dir D|split; reflexivity]).
Qed.


Lemma theme_application_fs plat darkMode w :
  fs (final (theme_application plat darkMode w)) = fs w.
Proof.
  rewrite theme_application_run. cbv zeta. case_match; reflexivity.
Qed.

Lemma main_final_fs plat disk :
  fs (final (main plat disk))
  = fs (final (configuration_file_handling plat (MkWorld disk initial_app))).
Proof.
  destruct (configuration_file_handling plat _) as [tr1 w1 [path|z]] eqn:E.
  - rewrite (main_success _ _ _ _ _ E). cbn [final].
    rewrite theme_application_fs.
    apply (translator_setup_final plat _ w1).
  - by rewrite (main_fatal _ _ _ _ _ E).
Qed.


(** ** Enumerating the paths of a stage *)

Ltac configuration_cases w :=
  rewrite configuration_file_handling_run; cbv zeta;
  let Hloc := fresh "Hloc" in
  let D := fresh "D" in
  let K := fresh "K" in
  let E := fresh "E" in
  let R := fresh "R" in
  let C := fresh "C" in
  destruct (isEmpty _) eqn:Hloc;
  [|destruct (is_dir (fs w) _) eqn:D; cbn [orb];
    [|destruct (mkpath_succeeds _ _) eqn:K];
    [destruct (files (fs w) !! (_ +:+ _ +:+ configFileName)) eqn:E;
     [|destruct (files (fs w) !! (":/" +:+ configFileName)) eqn:R;
       [destruct (copy_succeeds _ _ _) eqn:C|]]
    |destruct (files (fs w) !! (_ +:+ _ +:+ configFileName)) eqn:E;
     [|destruct (files (fs w) !! (":/" +:+ configFileName)) eqn:R;
       [destruct (copy_succeeds _ _ _) eqn:C|]]
    |]].

Ltac translator_cases idioma :=
  rewrite translator_setup_run; cbv zeta; unfold translation_warning;
  repeat (destruct (String.eqb idioma _); [repeat case_match|]).

Ltac theme_cases :=
  rewrite theme_application_run; cbv zeta; case_match.







(** ** Which stage a call of [main] comes from *)

Lemma main_success_steps plat disk tr1 w1 path :
  configuration_file_handling plat (MkWorld disk initial_app)
    = MkRun tr1 w1 (Continue path) ->
  exists rest,
    trace (main plat disk) = boot_trace plat ++ tr1 ++ rest
    /\ Forall (fun e => outside_configuration e = true) (boot_trace plat)
    /\ Forall (fun e => outside_configuration e = true) rest.
Proof.
  intros Hcfg. rewrite (main_success _ _ _ _ _ Hcfg). cbn [trace].
  eexists. split; [reflexivity|].
  split; [unfold boot_trace; trace_facts|].
  apply Forall_app; split;
    [eapply Forall_impl; [apply load_settings_steps|by_kind]|].
  apply Forall_app; split;
    [eapply Forall_impl; [apply translator_setup_steps|by_kind]|].
  apply Forall_app; split;
    [eapply Forall_impl; [apply theme_application_steps|by_kind]|].
  rewrite create_main_window_run, show_main_window_run. cbn [trace].
  destruct (preferences _).1.2; trace_facts.
Qed.

Lemma main_success_elem plat disk tr1 w1 path e :
  configuration_file_handling plat (MkWorld disk initial_app)
    = MkRun tr1 w1 (Continue path) ->
  e ∈ trace (main plat disk) ->
  e ∈ tr1 \/ outside_configuration e = true.
Proof.
  intros Hcfg Hin.
  destruct (main_success_steps _ _ _ _ _ Hcfg) as (rest & Htr & Hboot & Hrest).
  rewrite Htr, !elem_of_app in Hin. destruct Hin as [Hin|[Hin|Hin]]; auto.
  - right. by apply (proj1 (Forall_forall _ _) Hboot).
  - right. by apply (proj1 (Forall_forall _ _) Hrest).
Qed.

Lemma event_loop_after_configuration plat disk :
  Exec ∈ trace (main plat disk) ->
  exists tr1 w1,
    configuration_file_handling plat (MkWorld disk initial_app)
    = MkRun tr1 w1
            (Continue (writableLocation plat +:+ "/" +:+ configFileName)).
Proof.
  intros Hin.
  destruct (main_cases plat disk)
    as [(pre & title & text & w1 & Hmain & Hpre)|(tr1 & w1 & Hcfg & _)];
    [|eauto].
  rewrite Hmain in Hin. cbn [trace] in Hin. rewrite !elem_of_app in Hin.
  destruct Hin as [Hin|[Hin|Hin]].
  - unfold boot_trace in Hin. in_trace Hin.
  - apply (steps_of _ _ _ Hpre) in Hin. discriminate Hin.
  - in_trace Hin.
Qed.

(** ** A second run *)

(** X2: after a run of [main] that reached the event loop, a second run on
    the file system it left, on any platform with the same configuration
    location, reaches the event loop as well, whatever that platform allows,
    without any call that writes to the disk, and leaves the file system as
    it found it. *)
Theorem second_run_changes_nothing plat plat' disk :
  Exec ∈ trace (main plat disk) ->
  writableLocation plat' = writableLocation plat ->
  let disk1 := fs (final (main plat disk)) in
  let r2 := main plat' disk1 in
  fs (final r2) = disk1
  /\ last (trace r2) = Some Exec
  /\ exit_status r2 = exec_result plat'
  /\ Forall (fun e => writes_disk e = false) (trace r2).
Proof.
  intros Hexec Hloc. cbv zeta.
  destruct (event_loop_after_configuration _ _ Hexec) as (tr1 & w1 & Hcfg).
  rewrite (main_final_fs plat disk), Hcfg. cbn [final].
  destruct (configuration_file_handling_ready _ _ _ _ _ Hcfg)
    as (_ & [f Hf] & Hdir & _ & Hne).
  assert (configuration_file_handling plat' (MkWorld (fs w1) initial_app)
          = MkRun [Log Debug [LText "Using existing configuration file:";
                              LString (writableLocation plat' +:+ "/"
                                       +:+ configFileName)]]
                  (MkWorld (fs w1) initial_app)
                  (Continue (writableLocation plat' +:+ "/" +:+ configFileName)))
    as Hcfg2.
  { rewrite configuration_file_handling_run. cbv zeta. rewrite Hloc, Hne.
    cbn [fs qapp]. rewrite Hdir, Hf. cbn [orb app]. by destruct (fs w1). }
  split; [by rewrite main_final_fs, Hcfg2|].
  destruct (main_enters_event_loop _ _ _ _ _ Hcfg2) as (Hlast & Hflow & _).
  split; [exact Hlast|].
  split; [unfold exit_status; by rewrite Hflow|].
  apply Forall_forall. intros e Hin.
  destruct (main_success_elem _ _ _ _ _ _ Hcfg2 Hin) as [He|He].
  - apply elem_of_cons in He as [->|He]; [reflexivity|].
    by apply elem_of_nil in He.
  - destruct e; try discriminate He; reflexivity.
Qed.

Lemma second_run_changes_nothing_witness :
  let plat := sample_platform "/home/u/.config/XFB" true in
  let plat' := sample_platform "/home/u/.config/XFB" false in
  Exec ∈ trace (main plat fresh_disk)
  /\ fs (final (main plat' (fs (final (main plat fresh_disk)))))
     = fs (final (main plat fresh_disk)).
Proof.
  cbv zeta.
  assert (Exec ∈ trace (main (sample_platform "/home/u/.config/XFB" true)
                             fresh_disk)) as H.
  { apply list_elem_of_lookup. exists 42%nat. vm_compute. reflexivity. }
  split; [exact H|].
  exact (proj1 (second_run_changes_nothing
                  (sample_platform "/home/u/.config/XFB" true)
                  (sample_platform "/home/u/.config/XFB" false)
                  fresh_disk H eq_refl)).
Defined.

(** ** The first run *)

(** X3: on a first run (configuration directory there or creatable, no
    configuration file yet, bundled default present, copy allowed) the
    configuration file is created with the contents of the bundled default;
    its permissions become owner read/write, group read, other read when
    they can be set, and stay those of the resource otherwise, which is not
    an error; no other file changes, and the settings are then read from the
    contents of the bundled default. *)
Theorem first_run_copies_default plat w f :
  let loc := writableLocation plat in
  let path := loc +:+ "/" +:+ configFileName in
  let res := ":/" +:+ configFileName in
  loc <> "" ->
  is_dir (fs w) loc || mkpath_succeeds plat loc = true ->
  files (fs w) !! path = None ->
  files (fs w) !! res = Some f ->
  copy_succeeds plat res path = true ->
  let r := configuration_file_handling plat w in
  let perms := if setPermissions_succeeds plat path then 0x6044%Z
               else permissions f in
  flow r = Continue path
  /\ files (fs (final r))
     = <[path := MkFile (contents f) perms]> (files (fs w))
  /\ (exists pre,
        trace r = pre ++ [FileCopy res path;
                          Log Info [LText "Copied default configuration to:";
                                    LString path];
                          SetPermissions path 0x6044]
        /\ Forall (fun e => is_critical e = false) pre)
  /\ QSettings_read plat (fs (final r)) path
     = default ∅ (readIniFile plat (contents f))
  /\ (setPermissions_succeeds plat path = true ->
      Z.land perms QFile.WriteOwner = QFile.WriteOwner
      /\ Z.land perms 0x0033 = 0%Z).
Proof.
  intros loc path res Hloc Hdir Hnone Hres Hcopy r perms. subst r perms.
  rewrite configuration_file_handling_run. cbv zeta.
  fold loc path res.
  rewrite (isEmpty_false _ Hloc), Hdir, Hnone, Hres, Hcopy.
  cbn [flow final trace fs files].
  split; [reflexivity|]. split; [reflexivity|].
  split.
  { destruct (is_dir (fs w) loc); cbn [app];
      [eexists [_; _]|eexists [_; _; _; _]];
      (split; [reflexivity|trace_facts]). }
  split.
  { unfold QSettings_read. cbn [files]. by rewrite lookup_insert_eq. }
  intros ->. split; reflexivity.
Qed.

Lemma first_run_copies_default_witness :
  let plat := sample_platform "/home/u/.config/XFB" true in
  let w := MkWorld fresh_disk initial_app in
  files (fs w) !! "/home/u/.config/XFB/xfb.conf" = None
  /\ files (fs w) !! ":/xfb.conf" = Some (MkFile "" 0x4444)
  /\ files (fs (final (configuration_file_handling plat w)))
     = <["/home/u/.config/XFB/xfb.conf" := MkFile "" 0x6044]> (files (fs w)).
Proof.
  cbv zeta. split; [vm_compute; reflexivity|].
  split; [vm_compute; reflexivity|].
  refine (proj1 (proj2 (first_run_copies_default
                          (sample_platform "/home/u/.config/XFB" true)
                          (MkWorld fresh_disk initial_app)
                          (MkFile "" 0x4444) _ _ _ _ _)));
    first [discriminate | vm_compute; reflexivity].
Defined.

(** X4: when the configuration file is missing and the bundled default is
    missing too or cannot be copied, [main] logs three critical lines, the
    second of which says whether the resource exists, hides the splash
    screen, shows the error dialog and returns 1; no later stage runs, no
    file changes, and a configuration directory created on the way stays. *)
Theorem default_copy_failure_is_fatal plat disk :
  let loc := writableLocation plat in
  let path := loc +:+ "/" +:+ configFileName in
  let res := ":/" +:+ configFileName in
  loc <> "" ->
  is_dir disk loc || mkpath_succeeds plat loc = true ->
  files disk !! path = None ->
  files disk !! res = None \/ copy_succeeds plat res path = false ->
  let r := main plat disk in
  flow r = Return 1
  /\ (exists pre,
        trace r =
        boot_trace plat ++ pre ++
        [FileCopy res path;
         Log Critical [LText "Failed to copy default configuration from";
                       LString res; LText "to"; LString path];
         Log Critical [LText "Resource exists?";
                       LBool (bool_decide (is_Some (files disk !! res)))];
         Log Critical [LText "Check resource path and write permissions for";
                       LString loc];
         SplashHide;
         MessageBoxCritical "Configuration Error"
           "Could not copy default configuration file."]
        /\ Forall (fun e => configuration_step e = true) pre)
  /\ Forall (fun e => loads_settings e = false /\ resolves_locale e = false
                      /\ applies_theme e = false
                      /\ constructs_window e = false) (trace r)
  /\ files (fs (final r)) = files disk
  /\ is_dir (fs (final r)) loc = true.
Proof.
  intros loc path res Hloc Hdir Hnone Hfail r. subst r.
  assert (exists pre,
            configuration_file_handling plat (MkWorld disk initial_app)
            = MkRun (pre ++
                     [FileCopy res path;
                      Log Critical
                        [LText "Failed to copy default configuration from";
                         LString res; LText "to"; LString path];
                      Log Critical
                        [LText "Resource exists?";
                         LBool (bool_decide (is_Some (files disk !! res)))];
                      Log Critical
                        [LText "Check resource path and write permissions for";
                         LString loc];
                      SplashHide;
                      MessageBoxCritical "Configuration Error"
                        "Could not copy default configuration file."])
                    (MkWorld (MkFS (if is_dir disk loc then dirs disk
                                    else {[loc]} ∪ dirs disk) (files disk))
                             initial_app)
                    (Return 1)
            /\ Forall (fun e => configuration_step e = true) pre) as Hcfg.
  { rewrite configuration_file_handling_run. cbv zeta. fold loc path res.
    cbn [fs qapp translators translate].
    rewrite (isEmpty_false _ Hloc), Hdir, Hnone.
    destruct Hfail as [Hres|Hcopy].
    - rewrite Hres. destruct (is_dir disk loc); cbn [app];
        [eexists [_; _]|eexists [_; _; _; _]];
        (split; [reflexivity|trace_facts]).
    - rewrite Hcopy. destruct (files disk !! res) as [f|];
        destruct (is_dir disk loc); cbn [app];
        first [eexists [_; _]; split; [reflexivity|trace_facts]
              |eexists [_; _; _; _]; split; [reflexivity|trace_facts]]. }
  destruct Hcfg as (pre & Hcfg & Hpre).
  rewrite (main_fatal _ _ _ _ _ Hcfg). cbn [flow trace final fs files].
  split; [reflexivity|]. split; [eauto|].
  split.
  { apply Forall_app; split;
      [unfold boot_trace; cbn [app];
       repeat first [apply Forall_cons; split; [repeat split|]
                    | apply Forall_nil_2]|].
    apply Forall_app; split.
    - eapply Forall_impl; [exact Hpre|].
      intros e He. destruct e; try discriminate He; repeat split.
    - repeat first [apply Forall_cons; split; [repeat split|]
                   | apply Forall_nil_2]. }
  split; [reflexivity|].
  destruct (is_dir disk loc) eqn:D; [ready_dir D|apply is_dir_created].
Qed.

Lemma default_copy_failure_is_fatal_witness :
  let plat := sample_platform "/home/u/.config/XFB" true in
  let disk := MkFS ∅ ∅ in
  files disk !! ":/xfb.conf" = None
  /\ exit_status (main plat disk) = 1%Z
  /\ is_dir (fs (final (main plat disk))) "/home/u/.config/XFB" = true.
Proof.
  cbv zeta. split; [reflexivity|].
  pose proof (default_copy_failure_is_fatal
                (sample_platform "/home/u/.config/XFB" true) (MkFS ∅ ∅)) as H.
  cbv zeta in H.
  destruct H as (Hflow & _ & _ & _ & Hdir);
    [discriminate | vm_compute; reflexivity | reflexivity
    | left; reflexivity |].
  split; [unfold exit_status; by rewrite Hflow|exact Hdir].
Defined.

(** ** When [main] fails *)




(** ** The three outcomes of the translator setup *)

Ltac outcome_holds :=
  first [ solve [auto]
        | solve [split; [congruence|intros [[? ?]|[? ?]]; congruence]] ].

Ltac outcome_absurd H :=
  lazymatch type of H with
  | _ \/ _ => destruct H as [[? ?]|[? ?]]; congruence
  | _ /\ _ => destruct H as [? H]; first [congruence | apply H; auto]
  | _ => congruence
  end.

Ltac outcome_iff :=
  let H := fresh "H" in
  split;
  [ intros H; try destruct H as [? H]; cbn [trace app] in H; in_trace H;
    outcome_holds
  | intros H;
    first [ solve [eexists; trace_has] | solve [trace_has]
          | exfalso; outcome_absurd H ] ].

(** X6: the translator setup installs a translator exactly when the code is
    "pt" or "fr" and its catalogue loads; it warns and pauses for 1500 ms
    exactly when the code is not "en" and nothing was installed; and it
    reports the default English GUI exactly when the code is "en".  So "en"
    never warns, and exactly one of the three outcomes occurs. *)
Theorem translator_setup_outcomes plat idioma w :
  let r := translator_setup plat idioma w in
  let installable :=
    (idioma = "pt" /\ loads plat (fs w) ":/portugues.qm" = true)
    \/ (idioma = "fr" /\ loads plat (fs w) ":/frances.qm" = true) in
  ((exists tr, InstallTranslator tr ∈ trace r) <-> installable)
  /\ (MSleep 1500 ∈ trace r <-> idioma <> "en" /\ ~ installable)
  /\ ((exists args, Log Warning args ∈ trace r)
      <-> idioma <> "en" /\ ~ installable)
  /\ (Log Debug [LText "Using default English GUI."] ∈ trace r
      <-> idioma = "en").
Proof.
  cbv zeta. rewrite translator_setup_run. cbv zeta.
  unfold translation_warning, loads.
  destruct (String.eqb_spec idioma "pt") as [->|Hpt].
  { destruct (files (fs w) !! ":/portugues.qm") as [f|];
      [destruct (qm_loadable plat (contents f)) eqn:L|]; cbn [trace app];
      (split; [|split; [|split]]); outcome_iff. }
  destruct (String.eqb_spec idioma "fr") as [->|Hfr].
  { destruct (files (fs w) !! ":/frances.qm") as [f|];
      [destruct (qm_loadable plat (contents f)) eqn:L|]; cbn [trace app];
      (split; [|split; [|split]]); outcome_iff. }
  destruct (String.eqb_spec idioma "en") as [->|Hen]; cbn [trace app];
    (split; [|split; [|split]]); outcome_iff.
Qed.

(** ** A translation that loads *)

(** X7: when the code is "pt" or "fr" and its catalogue loads, the translator
    setup installs that catalogue in front of those already installed,
    without warning or pause, and changes nothing else.  In a run of [main]
    whose stored Language is that code, the messages before the installation
    are the source texts, and those after it ("Applying theme...",
    "Loading main window...", "XFB is Ready!") are what the catalogue makes
    of them. *)
Theorem loaded_translation_is_installed plat idioma path w f :
  (idioma = "pt" /\ path = ":/portugues.qm")
  \/ (idioma = "fr" /\ path = ":/frances.qm") ->
  files (fs w) !! path = Some f ->
  qm_loadable plat (contents f) = true ->
  let r := translator_setup plat idioma w in
  flow r = Continue tt
  /\ final r = MkWorld (fs w)
                 (MkApp (contents f :: translators (qapp w))
                        (palette (qapp w)) (styleSheet (qapp w)))
  /\ (exists text,
        trace r =
        [SplashMessage (translate plat (translators (qapp w)) text)
                       alignit msgColor;
         ProcessEvents; TranslatorLoad path;
         InstallTranslator (Some (contents f));
         Log Debug [LText "Installed translator for language:";
                    LString idioma]])
  /\ (forall disk tr1 path',
        configuration_file_handling plat (MkWorld disk initial_app)
          = MkRun tr1 w (Continue path') ->
        (preferences (QSettings_read plat (fs w) path')).1.1 = idioma ->
        translators (qapp (final (main plat disk))) = [contents f]
        /\ SplashMessage "Loading settings..." alignit msgColor
           ∈ trace (main plat disk)
        /\ forall text,
             text ∈ ["Applying theme..."; "Loading main window...";
                     "XFB is Ready!"] ->
             SplashMessage (translate plat [contents f] text) alignit msgColor
             ∈ trace (main plat disk)).
Proof.
  intros Hcode Hf Hload.
  assert (exists text,
            translator_setup plat idioma w
            = MkRun [SplashMessage
                       (translate plat (translators (qapp w)) text)
                       alignit msgColor;
                     ProcessEvents; TranslatorLoad path;
                     InstallTranslator (Some (contents f));
                     Log Debug [LText "Installed translator for language:";
                                LString idioma]]
                    (MkWorld (fs w)
                       (MkApp (contents f :: translators (qapp w))
                              (palette (qapp w)) (styleSheet (qapp w))))
                    (Continue tt)) as [text0 Hrun].
  { rewrite translator_setup_run. cbv zeta.
    destruct Hcode as [[-> ->]|[-> ->]]; cbn [String.eqb Ascii.eqb Bool.eqb];
      rewrite Hf, Hload; eexists; reflexivity. }
  cbv zeta. rewrite Hrun. cbn [flow final trace].
  split; [reflexivity|]. split; [reflexivity|]. split; [eauto|].
  intros disk tr1 path' Hcfg Hlang.
  destruct (configuration_file_handling_ready _ _ _ _ _ Hcfg)
    as (_ & _ & _ & Happ & _). cbn [qapp] in Happ.
  rewrite (main_success _ _ _ _ _ Hcfg). cbn [trace final].
  rewrite Hlang, Hrun. cbn [final trace].
  rewrite load_settings_run, theme_application_run, create_main_window_run,
    show_main_window_run. cbv zeta.
  rewrite Happ. unfold initial_app at 1.
  cbn [translators translate trace fs qapp].
  assert (forall (a b c d e : list Event) x,
            x ∈ c -> x ∈ a ++ b ++ c ++ d ++ e) as Hsettings
    by (intros; rewrite !elem_of_app; auto).
  assert (forall (a b c d e g : list Event) x,
            x ∈ e ++ g -> x ∈ a ++ b ++ c ++ d ++ e ++ g) as Hlater
    by (intros; rewrite !elem_of_app in *; tauto).
  split; [destruct (files (fs w) !! qssFilePath _); reflexivity|].
  split; [apply Hsettings; trace_has|].
  intros text Hin. apply Hlater.
  destruct (files (fs w) !! qssFilePath _); cbn [final trace qapp translators];
    destruct (preferences _).1.2;
    (repeat (apply elem_of_cons in Hin as [->|Hin]));
    try (apply elem_of_nil in Hin; contradiction); cbn [app];
    repeat first [apply list_elem_of_here | apply list_elem_of_further].
Qed.

Lemma loaded_translation_is_installed_witness :
  let w := MkWorld (full_disk "Language=pt") initial_app in
  files (fs w) !! ":/portugues.qm" = Some (MkFile "pt-catalogue" 0x4444)
  /\ translators (qapp (final (translator_setup sample_platform_pt "pt" w)))
     = ["pt-catalogue"]
  /\ SplashMessage "A aplicar o tema..." alignit msgColor
     ∈ trace (main sample_platform_pt (full_disk "Language=pt")).
Proof.
  cbv zeta.
  assert (files (full_disk "Language=pt") !! ":/portugues.qm"
          = Some (MkFile "pt-catalogue" 0x4444)) as Hf
    by (vm_compute; reflexivity).
  split; [exact Hf|].
  pose proof (loaded_translation_is_installed sample_platform_pt "pt"
                ":/portugues.qm"
                (MkWorld (full_disk "Language=pt") initial_app)
                (MkFile "pt-catalogue" 0x4444)
                (or_introl (conj eq_refl eq_refl)) Hf eq_refl) as H.
  cbv zeta in H. destruct H as (_ & Hfinal & _ & Hmain).
  split; [by rewrite Hfinal|].
  refine (proj2 (proj2 (Hmain (full_disk "Language=pt") _
                          "/home/u/.config/XFB/xfb.conf" _ _))
            "Applying theme..." _).
  - vm_compute. reflexivity.
  - vm_compute. reflexivity.
  - repeat constructor.
Defined.

Ltac in_list H :=
  repeat (apply elem_of_cons in H as [->|H]);
  try (apply elem_of_nil in H; contradiction).

(** ** A stylesheet that opens *)



(** ** From the stored preferences to the session *)

Lemma main_success_stage_events plat disk tr1 w1 path e :
  configuration_file_handling plat (MkWorld disk initial_app)
    = MkRun tr1 w1 (Continue path) ->
  let prefs := preferences (QSettings_read plat (fs w1) path) in
  let r3 := translator_setup plat prefs.1.1 w1 in
  (loads_settings e = true ->
   e ∈ trace (main plat disk) <-> e ∈ trace (load_settings plat path w1))
  /\ (resolves_locale e = true ->
      e ∈ trace (main plat disk) <-> e ∈ trace r3)
  /\ (applies_theme e = true ->
      e ∈ trace (main plat disk)
      <-> e ∈ trace (theme_application plat prefs.2 (final r3))).
Proof.
  intros Hcfg prefs r3.
  pose proof (configuration_file_handling_outcome plat
                (MkWorld disk initial_app)) as Hout.
  cbv zeta in Hout. rewrite Hcfg in Hout. cbn [flow trace] in Hout.
  destruct Hout as [_ Htr1].
  pose proof (load_settings_steps plat path w1) as H2.
  pose proof (translator_setup_steps plat prefs.1.1 w1) as H3.
  pose proof (theme_application_steps plat prefs.2 (final r3)) as H4.
  rewrite (main_success _ _ _ _ _ Hcfg). cbn [trace].
  fold prefs. fold r3.
  rewrite create_main_window_run, show_main_window_run. cbn [trace].
  rewrite !elem_of_app.
  repeat split; try tauto.
  all: intros [Hin|[Hin|[Hin|[Hin|[Hin|[Hin|[Hin|Hin]]]]]]]; try assumption.
  all: try (unfold boot_trace in Hin; in_list Hin; discriminate).
  all: try (apply (steps_of _ _ _ Htr1) in Hin; destruct e; discriminate).
  all: try (apply (steps_of _ _ _ H2) in Hin; destruct e; discriminate).
  all: try (apply (steps_of _ _ _ H3) in Hin; destruct e; discriminate).
  all: try (apply (steps_of _ _ _ H4) in Hin; destruct e; discriminate).
  all: try (in_list Hin; discriminate).
  all: destruct prefs.1.2; in_list Hin; discriminate.
Qed.

Lemma theme_application_selection plat darkMode w :
  let r := theme_application plat darkMode w in
  (forall p, SetPalette p ∈ trace r <->
             p = setColors plat (palette_colors darkMode))
  /\ (forall path, FileOpen path ∈ trace r <-> path = qssFilePath darkMode)
  /\ palette (qapp (final r)) = Some (setColors plat (palette_colors darkMode)).
Proof.
  cbv zeta. rewrite theme_application_run. cbv zeta.
  split; [|split].
  - intros p. case_match; cbn [trace app];
      (split; [intros Hin; in_trace Hin; reflexivity | intros ->; trace_has]).
  - intros path. case_match; cbn [trace app];
      (split; [intros Hin; in_trace Hin; reflexivity | intros ->; trace_has]).
  - case_match; reflexivity.
Qed.



(** X10: in every run of [main] that gets past configuration file handling,
    the translation loaded is decided by the stored Language value, compared
    as it is written: ":/portugues.qm" for "pt", ":/frances.qm" for "fr",
    none otherwise; with the key absent the code is "en", nothing is loaded
    and no translator is installed. *)
Theorem stored_Language_selects_catalogue plat disk tr1 w1 path :
  configuration_file_handling plat (MkWorld disk initial_app)
    = MkRun tr1 w1 (Continue path) ->
  let settings := QSettings_read plat (fs w1) path in
  let idioma := toString (value settings "Language" (QVariant_String "en")) in
  let r := main plat disk in
  (forall p, TranslatorLoad p ∈ trace r <->
             (idioma = "pt" /\ p = ":/portugues.qm")
             \/ (idioma = "fr" /\ p = ":/frances.qm"))
  /\ (forall s, settings !! "Language" = Some s -> idioma = s)
  /\ (settings !! "Language" = None ->
      idioma = "en"
      /\ translators (qapp (final r)) = []
      /\ (forall p, TranslatorLoad p ∉ trace r)
      /\ forall tr, InstallTranslator tr ∉ trace r).
Proof.
  intros Hcfg settings idioma r. subst r.
  assert (forall e, resolves_locale e = true ->
            e ∈ trace (main plat disk) <->
            e ∈ trace (translator_setup plat idioma w1)) as Hlocale.
  { intros e. apply (main_success_stage_events _ _ _ _ _ e Hcfg). }
  assert (forall p, TranslatorLoad p ∈ trace (main plat disk) <->
                    (idioma = "pt" /\ p = ":/portugues.qm")
                    \/ (idioma = "fr" /\ p = ":/frances.qm")) as Hload.
  { intros p. rewrite (Hlocale (TranslatorLoad p) eq_refl).
    apply translator_setup_loads. }
  split; [exact Hload|].
  split; [intros s Hs; subst idioma; unfold value; by rewrite Hs|].
  intros Hnone.
  assert (idioma = "en") as Hen
    by (subst idioma; unfold value; by rewrite Hnone).
  split; [exact Hen|].
  destruct (configuration_file_handling_ready _ _ _ _ _ Hcfg)
    as (_ & _ & _ & Happ & _). cbn [qapp] in Happ.
  destruct (main_enters_event_loop _ _ _ _ _ Hcfg) as (_ & _ & Hfinal & _).
  cbv zeta in Hfinal.
  change (preferences (QSettings_read plat (fs w1) path)).1.1 with idioma
    in Hfinal.
  assert (translator_setup plat "en" w1
          = MkRun [SplashMessage
                     (translate plat (translators (qapp w1))
                        "Loading English GUI...") alignit msgColor;
                   ProcessEvents;
                   Log Debug [LText "Using default English GUI."]]
                  w1 (Continue tt)) as Hrun
    by (by rewrite translator_setup_run).
  split; [|split].
  - rewrite Hfinal, Hen, Hrun, theme_application_run. cbv zeta.
    case_match; cbn [final qapp translators]; by rewrite Happ.
  - intros p Hin. apply Hload in Hin. rewrite Hen in Hin.
    destruct Hin as [[? _]|[? _]]; discriminate.
  - intros tr Hin. apply (Hlocale (InstallTranslator tr) eq_refl) in Hin.
    rewrite Hen, Hrun in Hin. cbn [trace] in Hin. in_trace Hin.
Qed.

Lemma stored_Language_selects_catalogue_witness :
  let disk := full_disk "Language=pt" in
  flow (configuration_file_handling sample_platform_pt
          (MkWorld disk initial_app))
    = Continue "/home/u/.config/XFB/xfb.conf"
  /\ TranslatorLoad ":/portugues.qm" ∈ trace (main sample_platform_pt disk).
Proof.
  cbv zeta.
  assert (flow (configuration_file_handling sample_platform_pt
                  (MkWorld (full_disk "Language=pt") initial_app))
          = Continue "/home/u/.config/XFB/xfb.conf") as H
    by (vm_compute; reflexivity).
  split; [exact H|].
  destruct (stored_Language_selects_catalogue _ _ _ _ _ (run_continue _ _ H))
    as (Hload & _).
  apply Hload. left. split; [vm_compute|]; reflexivity.
Defined.

(** ** Settings come from the provisioned file *)

(** X11: when [main] reaches the event loop, the configuration file exists at
    the writable location followed by "/xfb.conf" in the file system it
    leaves, in an existing directory; the settings were opened once, on that
    path and no other, and the three keys Language, FullScreen and DarkMode
    were read and no other. *)
Theorem settings_read_from_provisioned_file plat disk :
  Exec ∈ trace (main plat disk) ->
  let r := main plat disk in
  let loc := writableLocation plat in
  let path := loc +:+ "/" +:+ configFileName in
  is_Some (files (fs (final r)) !! path)
  /\ is_dir (fs (final r)) loc = true
  /\ (forall p, SettingsOpen p ∈ trace r <-> p = path)
  /\ (forall key, SettingsValue key ∈ trace r <-> key ∈ recognized_keys)
  /\ exists pre post,
       trace r = pre ++ SettingsOpen path :: post
       /\ Forall (fun e => writes_disk e = false) post.
Proof.
  intros Hexec. cbv zeta.
  destruct (event_loop_after_configuration _ _ Hexec) as (tr1 & w1 & Hcfg).
  destruct (configuration_file_handling_ready _ _ _ _ _ Hcfg)
    as (_ & Hfile & Hdir & _).
  rewrite main_final_fs, Hcfg. cbn [final].
  split; [exact Hfile|]. split; [exact Hdir|].
  split; [|split].
  - intros p.
    rewrite (proj1 (main_success_stage_events _ _ _ _ _ (SettingsOpen p) Hcfg)
               eq_refl).
    rewrite load_settings_run. cbv zeta. cbn [trace].
    split; [intros Hin; in_trace Hin; reflexivity|intros ->; trace_has].
  - intros key.
    rewrite (proj1 (main_success_stage_events _ _ _ _ _ (SettingsValue key)
                      Hcfg) eq_refl).
    rewrite load_settings_run. cbv zeta. cbn [trace]. unfold recognized_keys.
    split.
    + intros Hin. in_trace Hin; repeat constructor.
    + intros Hin. in_list Hin; trace_has.
  - rewrite (main_success _ _ _ _ _ Hcfg). cbn [trace].
    rewrite load_settings_run. cbv zeta. cbn [trace].
    eexists (boot_trace plat ++ tr1 ++ [_; _]), _. split.
    { rewrite <- !(assoc app). reflexivity. }
    cbn [app].
    repeat (apply Forall_cons; split; [reflexivity|]).
    apply Forall_app; split;
      [eapply Forall_impl; [apply translator_setup_steps|by_kind]|].
    apply Forall_app; split;
      [eapply Forall_impl; [apply theme_application_steps|by_kind]|].
    rewrite create_main_window_run, show_main_window_run. cbn [trace].
    destruct (preferences _).1.2; trace_facts.
Qed.

Lemma settings_read_from_provisioned_file_witness :
  let plat := sample_platform "/home/u/.config/XFB" true in
  Exec ∈ trace (main plat fresh_disk)
  /\ SettingsOpen "/home/u/.config/XFB/xfb.conf" ∈ trace (main plat fresh_disk).
Proof.
  cbv zeta.
  assert (Exec ∈ trace (main (sample_platform "/home/u/.config/XFB" true)
                             fresh_disk)) as H.
  { apply list_elem_of_lookup. exists 42%nat. vm_compute. reflexivity. }
  split; [exact H|].
  destruct (settings_read_from_provisioned_file _ _ H) as (_ & _ & Hopen & _).
  by apply Hopen.
Defined.

(** ** From the splash screen to the main window *)

Lemma splash_visible_steady (visible : bool) (tr : list Event) :
  Forall (fun e => is_handover e = false) tr ->
  foldl splash_step visible tr = visible.
Proof.
  intros H. induction H as [|e tr He _ IH]; [reflexivity|].
  cbn [foldl]. destruct e; try discriminate He; exact IH.
Qed.

(** X12: in every run of [main] that gets past configuration file handling,
    the splash screen is shown once, at the start; the main window is
    constructed once, after every call of the configuration, settings,
    translator and theme stages; then come the ready message, a pause of
    300 ms, the one call that shows the window, the end of the splash screen
    and the event loop.  The splash screen is on screen until the window has
    been shown, and gone afterwards. *)
Theorem main_window_takes_over_from_splash plat disk tr1 w1 path :
  configuration_file_handling plat (MkWorld disk initial_app)
    = MkRun tr1 w1 (Continue path) ->
  let fullScreen := (preferences (QSettings_read plat (fs w1) path)).1.2 in
  exists mid text,
    let shown := [NewPlayer; SplashMessage text alignit msgColor; MSleep 300;
                  if fullScreen then ShowFullScreen else Show] in
    trace (main plat disk)
    = boot_trace plat ++ mid ++ shown ++ [SplashFinish; Exec]
    /\ Forall (fun e => is_handover e = false) mid
    /\ (exists p, SetPalette p ∈ mid)
    /\ (exists p, SettingsOpen p ∈ mid)
    /\ splash_visible (boot_trace plat ++ mid ++ shown) = true
    /\ splash_visible (trace (main plat disk)) = false.
Proof.
  intros Hcfg fullScreen.
  pose proof (configuration_file_handling_outcome plat
                (MkWorld disk initial_app)) as Hout.
  cbv zeta in Hout. rewrite Hcfg in Hout. cbn [flow trace] in Hout.
  destruct Hout as [_ Htr1].
  rewrite (main_success _ _ _ _ _ Hcfg). cbn [trace].
  rewrite create_main_window_run, show_main_window_run. cbn [trace].
  fold fullScreen.
  set (t2 := trace (load_settings plat path w1)).
  set (r3 := translator_setup plat _ w1).
  set (r4 := theme_application plat _ (final r3)).
  set (m := SplashMessage
              (translate plat (translators (qapp (final r4)))
                 "Loading main window...") alignit msgColor).
  exists (tr1 ++ t2 ++ trace r3 ++ trace r4 ++ [m; ProcessEvents]),
         (translate plat (translators (qapp (final r4))) "XFB is Ready!").
  cbv zeta.
  assert (Forall (fun e => is_handover e = false)
                 (tr1 ++ t2 ++ trace r3 ++ trace r4 ++ [m; ProcessEvents]))
    as Hmid.
  { apply Forall_app; split;
      [eapply Forall_impl; [exact Htr1|by_kind]|].
    apply Forall_app; split;
      [eapply Forall_impl; [apply load_settings_steps|by_kind]|].
    apply Forall_app; split;
      [eapply Forall_impl; [apply translator_setup_steps|by_kind]|].
    apply Forall_app; split;
      [eapply Forall_impl; [apply theme_application_steps|by_kind]|].
    subst m. trace_facts. }
  match goal with
  | |- ?lhs = ?rhs /\ _ =>
      assert (lhs = rhs) as Heq by (by rewrite <- !(assoc app)); rewrite Heq
  end.
  split; [reflexivity|].
  split; [exact Hmid|].
  split.
  { exists (setColors plat (palette_colors
                              (preferences (QSettings_read plat (fs w1) path)).2)).
    rewrite !elem_of_app. do 3 right. left.
    apply (theme_application_selection plat _ (final r3)). reflexivity. }
  split.
  { exists path. rewrite !elem_of_app. right. left.
    subst t2. rewrite load_settings_run. cbv zeta. cbn [trace]. trace_has. }
  assert (splash_visible
            (boot_trace plat
             ++ (tr1 ++ t2 ++ trace r3 ++ trace r4 ++ [m; ProcessEvents])) = true)
    as Hvis.
  { unfold splash_visible. rewrite foldl_app.
    change (foldl splash_step false (boot_trace plat)) with true.
    by apply splash_visible_steady. }
  unfold splash_visible in *.
  set (mid := tr1 ++ t2 ++ trace r3 ++ trace r4 ++ [m; ProcessEvents]) in *.
  rewrite foldl_app in Hvis.
  rewrite !(assoc app (boot_trace plat) mid), !foldl_app, Hvis.
  destruct fullScreen; split; reflexivity.
Qed.

Lemma main_window_takes_over_from_splash_witness :
  let plat := sample_platform "/home/u/.config/XFB" true in
  flow (configuration_file_handling plat (MkWorld fresh_disk initial_app))
    = Continue "/home/u/.config/XFB/xfb.conf"
  /\ splash_visible (trace (main plat fresh_disk)) = false.
Proof.
  cbv zeta.
  assert (flow (configuration_file_handling
                  (sample_platform "/home/u/.config/XFB" true)
                  (MkWorld fresh_disk initial_app))
          = Continue "/home/u/.config/XFB/xfb.conf") as H
    by (vm_compute; reflexivity).
  split; [exact H|].
  destruct (main_window_takes_over_from_splash _ _ _ _ _ (run_continue _ _ H))
    as (mid & text & _ & _ & _ & _ & _ & Hgone).
  exact Hgone.
Defined.

(** ** Pauses *)

Lemma total_sleep_app (a b : list Event) :
  total_sleep (a ++ b) = (total_sleep a + total_sleep b)%Z.
Proof.
  induction a as [|e a IH]; [reflexivity|].
  cbn [app total_sleep]. destruct e; rewrite IH; lia.
Qed.

Lemma total_sleep_none (p : Event -> bool) (tr : list Event) :
  (forall ms, p (MSleep ms) = false) ->
  Forall (fun e => p e = true) tr ->
  total_sleep tr = 0%Z.
Proof.
  intros Hp H. induction H as [|e tr He _ IH]; [reflexivity|].
  cbn [total_sleep]. destruct e; try exact IH. by rewrite Hp in He.
Qed.

Lemma translator_setup_sleep plat idioma w :
  let tr := trace (translator_setup plat idioma w) in
  (total_sleep tr = 1500%Z /\ MSleep 1500 ∈ tr)
  \/ (total_sleep tr = 0%Z /\ MSleep 1500 ∉ tr).
Proof.
  cbv zeta. translator_cases idioma; cbn [trace app].
  all: first [ left; split; [reflexivity|trace_has]
             | right; split; [reflexivity|intros Hin; in_trace Hin] ].
Qed.

Lemma main_success_shape plat disk tr1 w1 path :
  configuration_file_handling plat (MkWorld disk initial_app)
    = MkRun tr1 w1 (Continue path) ->
  let prefs := preferences (QSettings_read plat (fs w1) path) in
  let r3 := translator_setup plat prefs.1.1 w1 in
  exists ta tb display,
    trace (main plat disk)
    = boot_trace plat ++ tr1 ++ trace (load_settings plat path w1)
      ++ trace r3 ++ trace (theme_application plat prefs.2 (final r3))
      ++ [SplashMessage ta alignit msgColor; ProcessEvents; NewPlayer;
          SplashMessage tb alignit msgColor; MSleep 300; display;
          SplashFinish; Exec]
    /\ (display = ShowFullScreen \/ display = Show).
Proof.
  intros Hcfg prefs r3. rewrite (main_success _ _ _ _ _ Hcfg). cbn [trace].
  rewrite create_main_window_run, show_main_window_run. cbn [trace app].
  eexists _, _, _. split; [reflexivity|].
  destruct (preferences _).1.2; auto.
Qed.

(** X13: the pauses of a run of [main] add up to 0, 300 or 1800 ms: nothing
    when start-up fails, 300 ms before the main window is shown, and 1500 ms
    more exactly when the translation warning is raised. *)
Theorem pauses_are_bounded plat disk :
  let r := main plat disk in
  let t := total_sleep (trace r) in
  (t = 0 \/ t = 300 \/ t = 1800)%Z
  /\ (t = 0%Z <-> Exec ∉ trace r)
  /\ (t = 1800%Z <-> MSleep 1500 ∈ trace r).
Proof.
  cbv zeta.
  destruct (main_cases plat disk)
    as [(pre & title & text & w1 & -> & Hpre)|(tr1 & w1 & Hcfg & Htr1)].
  - cbn [trace].
    assert (total_sleep (boot_trace plat ++ pre
                         ++ [SplashHide; MessageBoxCritical title text]) = 0%Z)
      as ->.
    { rewrite !total_sleep_app.
      rewrite (total_sleep_none configuration_step pre); [reflexivity|done|done]. }
    split; [auto|]. split.
    + split; [|reflexivity]. intros _. rewrite !elem_of_app.
      intros [Hin|[Hin|Hin]].
      * unfold boot_trace in Hin. in_trace Hin.
      * apply (steps_of _ _ _ Hpre) in Hin. discriminate Hin.
      * in_trace Hin.
    + split; [discriminate|]. rewrite !elem_of_app.
      intros [Hin|[Hin|Hin]].
      * unfold boot_trace in Hin. in_trace Hin.
      * apply (steps_of _ _ _ Hpre) in Hin. discriminate Hin.
      * in_trace Hin.
  - destruct (main_success_shape _ _ _ _ _ Hcfg)
      as (ta & tb & display & -> & Hdisplay).
    pose proof (load_settings_steps plat
                  (writableLocation plat +:+ "/" +:+ configFileName) w1) as H2.
    set (idioma := (preferences _).1.1).
    set (t2 := trace (load_settings _ _ _)) in *.
    destruct (translator_setup_sleep plat idioma w1) as [[Ht H3]|[Ht H3]];
      cbv zeta in Ht, H3.
    all: set (t3 := trace (translator_setup plat idioma w1)) in *.
    all: pose proof (theme_application_steps plat
                       (preferences
                          (QSettings_read plat (fs w1)
                             (writableLocation plat +:+ "/"
                              +:+ configFileName))).2
                       (final (translator_setup plat idioma w1))) as H4.
    all: set (t4 := trace (theme_application _ _ _)) in *.
    all: rewrite !total_sleep_app.
    all: rewrite (total_sleep_none configuration_step tr1) by done.
    all: rewrite (total_sleep_none settings_step t2) by done.
    all: rewrite (total_sleep_none theme_step t4) by done.
    all: rewrite Ht.
    all: assert (total_sleep
                   [SplashMessage ta alignit msgColor; ProcessEvents; NewPlayer;
                    SplashMessage tb alignit msgColor; MSleep 300; display;
                    SplashFinish; Exec] = 300%Z) as ->
           by (destruct Hdisplay as [->| ->]; reflexivity).
    all: change (total_sleep (boot_trace plat)) with 0%Z.
    all: split; [cbn; auto|].
    all: split;
      [split; [discriminate|];
       intros Hnot; exfalso; apply Hnot; rewrite !elem_of_app;
       do 5 right; trace_has|].
    + split; [intros _|reflexivity]. rewrite !elem_of_app. tauto.
    + split; [discriminate|]. rewrite !elem_of_app.
      intros Hin; exfalso; destruct Hin as [Hin|[Hin|[Hin|[Hin|[Hin|Hin]]]]].
      * unfold boot_trace in Hin. in_trace Hin.
      * apply (steps_of _ _ _ Htr1) in Hin. discriminate Hin.
      * apply (steps_of _ _ _ H2) in Hin. discriminate Hin.
      * exact (H3 Hin).
      * apply (steps_of _ _ _ H4) in Hin. discriminate Hin.
      * destruct Hdisplay as [->| ->]; in_trace Hin.
Qed.

(** ** Splash messages get drawn *)

Lemma flush_none (tr : list Event) : foldl flush_step None tr = None.
Proof. induction tr as [|e tr IH]; [reflexivity|exact IH]. Qed.

Lemma flush_sound (tr pre post : list Event) text a c :
  foldl flush_step (Some false) tr = Some false ->
  tr = pre ++ SplashMessage text a c :: post ->
  exists e post',
    post = e :: post' /\ (e = ProcessEvents \/ exists ms, e = MSleep ms).
Proof.
  intros H ->. rewrite foldl_app in H. cbn [foldl] in H.
  destruct (foldl flush_step (Some false) pre) as [[|]|];
    cbn [flush_step] in H; try (rewrite flush_none in H; discriminate H).
  destruct post as [|e post']; [discriminate H|].
  exists e, post'. split; [reflexivity|].
  cbn [foldl flush_step] in H.
  destruct e; try (rewrite flush_none in H; discriminate H); eauto.
Qed.

Lemma flush_app (a b : list Event) :
  foldl flush_step (Some false) a = Some false ->
  foldl flush_step (Some false) b = Some false ->
  foldl flush_step (Some false) (a ++ b) = Some false.
Proof. intros Ha Hb. by rewrite foldl_app, Ha. Qed.

Lemma configuration_file_handling_flushes plat w :
  foldl flush_step (Some false) (trace (configuration_file_handling plat w))
  = Some false.
Proof. configuration_cases w; reflexivity. Qed.

Lemma load_settings_flushes plat path w :
  foldl flush_step (Some false) (trace (load_settings plat path w))
  = Some false.
Proof. by rewrite load_settings_run. Qed.

Lemma translator_setup_flushes plat idioma w :
  foldl flush_step (Some false) (trace (translator_setup plat idioma w))
  = Some false.
Proof. translator_cases idioma; reflexivity. Qed.

Lemma theme_application_flushes plat darkMode w :
  foldl flush_step (Some false) (trace (theme_application plat darkMode w))
  = Some false.
Proof. theme_cases; reflexivity. Qed.

(** X14: in every run of [main], failed or not, each message put on the splash
    screen is directly followed by [processEvents] or by a pause, so no
    message is replaced or the splash screen hidden before it could be
    drawn. *)
Theorem every_message_is_flushed plat disk pre text a c post :
  trace (main plat disk) = pre ++ SplashMessage text a c :: post ->
  exists e post',
    post = e :: post' /\ (e = ProcessEvents \/ exists ms, e = MSleep ms).
Proof.
  apply flush_sound.
  pose proof (configuration_file_handling_flushes plat
                (MkWorld disk initial_app)) as H1.
  destruct (configuration_file_handling plat _) as [tr1 w1 [path|z]] eqn:Hcfg;
    cbn [trace] in H1.
  - rewrite (main_success _ _ _ _ _ Hcfg). cbn [trace].
    rewrite create_main_window_run, show_main_window_run. cbn [trace].
    apply flush_app; [reflexivity|].
    apply flush_app; [exact H1|].
    apply flush_app; [apply load_settings_flushes|].
    apply flush_app; [apply translator_setup_flushes|].
    apply flush_app; [apply theme_application_flushes|].
    destruct (preferences _).1.2; reflexivity.
  - rewrite (main_fatal _ _ _ _ _ Hcfg). cbn [trace].
    apply flush_app; [reflexivity|exact H1].
Qed.

Lemma every_message_is_flushed_witness :
  let plat := sample_platform "" true in
  trace (main plat fresh_disk)
  = take 10 (boot_trace plat)
    ++ SplashMessage "Initializing..." alignit msgColor
    :: drop 11 (trace (main plat fresh_disk))
  /\ exists e post', drop 11 (trace (main plat fresh_disk)) = e :: post'.
Proof.
  cbv zeta.
  assert (trace (main (sample_platform "" true) fresh_disk)
          = take 10 (boot_trace (sample_platform "" true))
            ++ SplashMessage "Initializing..." alignit msgColor
            :: drop 11 (trace (main (sample_platform "" true) fresh_disk)))
    as H by (vm_compute; reflexivity).
  split; [exact H|].
  destruct (every_message_is_flushed _ _ _ _ _ _ _ H) as (e & post' & Hpost & _).
  eauto.
Defined.

(** ** Process and toolkit set-up *)

(** X15: every run of [main], failed or not, starts with the same calls: the
    two environment variables and [setDesktopSettingsAware(false)] before the
    application object is constructed, then the window icon (the bundle's
    .icns file on macOS, the 48x48 PNG resource elsewhere), the application
    and organisation names, the Fusion style and the splash screen; none of
    these calls is made again later in the run. *)
Theorem setup_precedes_everything plat disk :
  exists rest,
    trace (main plat disk)
    = [PutEnv "QT_MULTIMEDIA_PREFERRED_PLUGINS" "gstreamer";
       PutEnv "QT_ACCESSIBILITY" "1";
       SetDesktopSettingsAware false;
       NewQApplication;
       SetWindowIcon (match target_os plat with
                      | Q_OS_MAC => "../Resources/XFB.icns"
                      | _ => ":/Resources/48x48.png"
                      end);
       SetApplicationName "XFB";
       SetOrganizationName "Netpack - Online Solutions";
       SetStyle "Fusion";
       NewSplashScreen "://images/splash.png"] ++ rest
    /\ Forall (fun e => is_setup e = false) rest.
Proof.
  assert (windowIcon plat = match target_os plat with
                            | Q_OS_MAC => "../Resources/XFB.icns"
                            | _ => ":/Resources/48x48.png"
                            end) as Hicon
    by (unfold windowIcon; destruct (target_os plat); reflexivity).
  destruct (main_cases plat disk)
    as [(pre & title & text & w1 & Hmain & Hpre)|(tr1 & w1 & Hcfg & Htr1)].
  - rewrite Hmain. cbn [trace]. unfold boot_trace. rewrite Hicon.
    eexists. split; [cbn [app]; reflexivity|].
    do 3 (apply Forall_cons; split; [reflexivity|]).
    apply Forall_app; split; [eapply Forall_impl; [exact Hpre|by_kind]|].
    trace_facts.
  - rewrite (main_success _ _ _ _ _ Hcfg). cbn [trace].
    unfold boot_trace. rewrite Hicon.
    eexists. split; [cbn [app]; reflexivity|].
    do 3 (apply Forall_cons; split; [reflexivity|]).
    apply Forall_app; split; [eapply Forall_impl; [exact Htr1|by_kind]|].
    apply Forall_app; split;
      [eapply Forall_impl; [apply load_settings_steps|by_kind]|].
    apply Forall_app; split;
      [eapply Forall_impl; [apply translator_setup_steps|by_kind]|].
    apply Forall_app; split;
      [eapply Forall_impl; [apply theme_application_steps|by_kind]|].
    rewrite create_main_window_run, show_main_window_run. cbn [trace].
    destruct (preferences _).1.2; trace_facts.
Qed.
